(** * Jharkhand tourism backend: booking pre-save hook and search controller

    A shallow embedding of

    - [src/models/bookings/Booking.model.ts]: the [pre('save')] middleware of
      the booking schema, which derives [nights] and [guests.total];
    - the search controller ([unifiedSearch] and [autocomplete]), which fans
      out regex queries over three collections and assembles one response.

    JavaScript values are modelled as follows.

    - A string is the list of its UTF-16 code units ([jsstring]); [length] is
      then the [.length] of the source, and [trim] removes exactly the code
      units ECMAScript calls WhiteSpace or LineTerminator.
    - A [Number] that holds a count or a millisecond timestamp is an integer
      of [Z]; an optional field is an [option], [None] standing for
      [undefined].  Mongoose's casting of [Number] and [Date] paths refuses
      [NaN] and invalid dates, so neither is a value of a document.
      Arithmetic is that of IEEE 754 binary64: every sum, difference and
      quotient is rounded to the nearest double, ties to even
      ([JsNumber]).
    - A lean document is a record of its [_id] and a finite map from dotted
      field paths to values. *)

From Stdlib Require Import ZArith Lia.
From stdpp Require Import base option list gmap strings.

#[local] Open Scope Z_scope.

(** ** JavaScript strings *)

Definition char16 : Type := N.
Definition jsstring : Type := list char16.

(** A literal of the source, as code units. *)
Definition lit (s : string) : jsstring :=
  List.map Ascii.N_of_ascii (String.list_ascii_of_string s).

(** ECMAScript WhiteSpace and LineTerminator code units, the set
    [String.prototype.trim] strips. *)
Definition isWhiteSpace (c : char16) : bool :=
  ((9 <=? c) && (c <=? 13) ||
   (c =? 32) || (c =? 160) || (c =? 5760) ||
   ((8192 <=? c) && (c <=? 8202)) ||
   (c =? 8232) || (c =? 8233) || (c =? 8239) || (c =? 8287) ||
   (c =? 12288) || (c =? 65279))%N.

Fixpoint trimStart (s : jsstring) : jsstring :=
  match s with
  | c :: s' => if isWhiteSpace c then trimStart s' else s
  | [] => []
  end.

Definition trimEnd (s : jsstring) : jsstring := rev (trimStart (rev s)).

Definition trim (s : jsstring) : jsstring := trimEnd (trimStart s).

(** What ECMAScript asks of [raw.trim()], stated without the algorithm: [t]
    is [raw] without a run of white space at its start and one at its end,
    and [t] itself neither starts nor ends with white space. *)
Definition isTrimOf (t raw : jsstring) : Prop :=
  (exists pre suf,
      raw = pre ++ t ++ suf /\
      forallb isWhiteSpace pre = true /\ forallb isWhiteSpace suf = true) /\
  (forall c, head t = Some c -> isWhiteSpace c = false) /\
  (forall c, last t = Some c -> isWhiteSpace c = false).

(** ** JavaScript numbers

    A finite double is [m * 2 ^ e] for integers [m] and [e] with
    [2 ^ 52 <= |m| <= 2 ^ 53], or zero.  The arithmetic below takes the
    exact result of an operation on integers and rounds it to the nearest
    such value, ties to the even [m], as IEEE 754 does.  The exponent range
    of binary64 is left open: results beyond [2 ^ 1024] or below
    [2 ^ -1022] in magnitude, which the dates and counts of a booking do
    not reach, are not turned into [Infinity] or subnormals. *)

Module JsNumber.

(** The integer nearest to [a / b], for [b > 0]; a tie goes to the even
    one. *)
Definition roundHalfEven (a b : Z) : Z :=
  let q := a / b in
  let r := a mod b in
  match 2 * r ?= b with
  | Lt => q
  | Gt => q + 1
  | Eq => if Z.even q then q else q + 1
  end.

(** [floor (log2 (|a| / b))], for [a <> 0] and [b > 0]. *)
Definition ilog2 (a b : Z) : Z :=
  let c := Z.log2 (Z.abs a) - Z.log2 b in
  if b * 2 ^ Z.max 0 c <=? Z.abs a * 2 ^ Z.max 0 (- c) then c else c - 1.

(** The double nearest to [a / b], as the pair [(m, e)] of its 53-bit
    significand and its exponent. *)
Definition nearestDouble (a b : Z) : Z * Z :=
  if a =? 0 then (0, 0)
  else
    let e := ilog2 a b - 52 in
    if 0 <=? e then (roundHalfEven a (b * 2 ^ e), e)
    else (roundHalfEven (a * 2 ^ (- e)) b, e).

(** [Math.ceil(x)] *)
Definition Math_ceil (x : Z * Z) : Z :=
  let '(m, e) := x in
  if 0 <=? e then m * 2 ^ e else - ((- m) / 2 ^ (- e)).

(** The value of a double that holds an integer. *)
Definition integerOf (x : Z * Z) : Z :=
  let '(m, e) := x in
  if 0 <=? e then m * 2 ^ e else m / 2 ^ (- e).

(** [a + b], [a - b] and [a / b] on numbers that hold integers. *)
Definition jsAdd (a b : Z) : Z := integerOf (nearestDouble (a + b) 1).

Definition jsSub (a b : Z) : Z := integerOf (nearestDouble (a - b) 1).

Definition jsDiv (a b : Z) : Z * Z := nearestDouble a b.

End JsNumber.

(** ** Booking model *)

Module Booking.
Import JsNumber.

(** A valid [Date], as milliseconds since the epoch ([getTime]). *)
Definition Date : Type := Z.

Definition getTime (d : Date) : Z := d.

(** Days from 1970-01-01 to the civil date [y]-[m]-[d] (proleptic
    Gregorian), used to write the timestamps of date-only literals such as
    [new Date('2024-01-01')], which ECMAScript reads as UTC midnight. *)
Definition daysFromCivil (y m d : Z) : Z :=
  let y' := if m <=? 2 then y - 1 else y in
  let era := y' / 400 in
  let yoe := y' - era * 400 in
  let mp := (m + 9) mod 12 in
  let doy := (153 * mp + 2) / 5 + d - 1 in
  let doe := yoe * 365 + yoe / 4 - yoe / 100 + doy in
  era * 146097 + doe - 719468.

Definition msPerDay : Z := 1000 * 60 * 60 * 24.

Definition dateOnly (y m d : Z) : Date := daysFromCivil y m d * msPerDay.

Inductive ListingType := homestay | guide.
Inductive BookingStatus := pending | confirmed | cancelled | completed.
Inductive PaymentStatus :=
  paymentPending | paymentCompleted | paymentRefunded | paymentFailed.

Record GuestCount := {
  adults : Z;
  children : option Z;
  total : option Z
}.

Record GuestDetails := {
  name : jsstring;
  email : jsstring;
  phone : jsstring
}.

Record BookingPricing := {
  basePrice : Z;
  cleaningFee : option Z;
  serviceFee : option Z;
  taxes : option Z;
  pricingTotal : Z
}.

(** The document the hook receives as [this].  The hook itself guards
    [checkIn], [checkOut] and [guests] against absence, so the three are
    optional here although the schema requires them. *)
Record IBooking := {
  bookingNumber : jsstring;
  listingType : ListingType;
  listingId : jsstring;
  listingTitle : option jsstring;
  checkIn : option Date;
  checkOut : option Date;
  nights : option Z;
  guests : option GuestCount;
  guestDetails : GuestDetails;
  specialRequests : option jsstring;
  pricing : BookingPricing;
  status : BookingStatus;
  paymentStatus : PaymentStatus;
  cancellationReason : option jsstring;
  cancelledAt : option Date
}.

Definition set_nights (n : Z) (b : IBooking) : IBooking :=
  {| bookingNumber := bookingNumber b; listingType := listingType b;
     listingId := listingId b; listingTitle := listingTitle b;
     checkIn := checkIn b; checkOut := checkOut b;
     nights := Some n;
     guests := guests b; guestDetails := guestDetails b;
     specialRequests := specialRequests b; pricing := pricing b;
     status := status b; paymentStatus := paymentStatus b;
     cancellationReason := cancellationReason b;
     cancelledAt := cancelledAt b |}.

Definition set_guests (g : GuestCount) (b : IBooking) : IBooking :=
  {| bookingNumber := bookingNumber b; listingType := listingType b;
     listingId := listingId b; listingTitle := listingTitle b;
     checkIn := checkIn b; checkOut := checkOut b;
     nights := nights b;
     guests := Some g; guestDetails := guestDetails b;
     specialRequests := specialRequests b; pricing := pricing b;
     status := status b; paymentStatus := paymentStatus b;
     cancellationReason := cancellationReason b;
     cancelledAt := cancelledAt b |}.

Definition set_total (t : Z) (g : GuestCount) : GuestCount :=
  {| adults := adults g; children := children g; total := Some t |}.

(** Truthiness of an optional number: [undefined] and [0] are falsy. *)
Definition truthy (n : option Z) : bool :=
  match n with
  | Some z => negb (z =? 0)
  | None => false
  end.

(** [n || d] on an optional number. *)
Definition orElse (n : option Z) (d : Z) : Z :=
  match n with
  | Some z => if z =? 0 then d else z
  | None => d
  end.

(** [Math.ceil(diffTime / (1000 * 60 * 60 * 24))]. *)
Definition ceilDays (diffTime : Z) : Z :=
  Math_ceil (jsDiv diffTime msPerDay).

(** First statement of the hook: [if (!this.nights && this.checkIn &&
    this.checkOut)].  A [Date] object is always truthy. *)
Definition deriveNights (b : IBooking) : IBooking :=
  match checkIn b, checkOut b with
  | Some ci, Some co =>
      if negb (truthy (nights b)) then
        let diffTime := jsSub (getTime co) (getTime ci) in
        set_nights (ceilDays diffTime) b
      else b
  | _, _ => b
  end.

(** Second statement: [if (this.guests && !this.guests.total)]. *)
Definition deriveTotal (b : IBooking) : IBooking :=
  match guests b with
  | Some g =>
      if negb (truthy (total g)) then
        let sum := jsAdd (adults g) (orElse (children g) 0) in
        set_guests (set_total sum g) b
      else b
  | None => b
  end.

(** [bookingSchema.pre('save', function () { ... })]. *)
Definition preSave (b : IBooking) : IBooking := deriveTotal (deriveNights b).

(** [guests.total] of a booking, [None] when [guests] or [total] is
    absent. *)
Definition guestsTotal (b : IBooking) : option Z :=
  match guests b with
  | Some g => total g
  | None => None
  end.

(** [n] is the ceiling of the rational [num / den], for positive [den]. *)
Definition isCeilingOf (n num den : Z) : Prop :=
  (n - 1) * den < num <= n * den.

End Booking.


(** ** Search controller *)

Module Search.

(** *** Collaborators

    The controller is written against three collaborators that live outside
    the two source files: the JavaScript regular-expression engine, the
    helpers of [utils/response.utils], and the Mongoose models.  Each is an
    interface here; the controller is defined over any implementation. *)

Inductive Error :=
| SyntaxError (pattern : jsstring)
| TypeError (what : string)
| MongoError (detail : jsstring).

Inductive Result (A : Type) :=
| Fulfilled (a : A)
| Rejected (e : Error).
Arguments Fulfilled {A} a.
Arguments Rejected {A} e.

(** [new RegExp(pattern, flags)] throws a [SyntaxError] on a malformed
    pattern: [newRegExp] is then [None]. *)
Class RegExpEngine := {
  RegExp : Type;
  newRegExp : jsstring -> string -> option RegExp;
  test : RegExp -> jsstring -> bool
}.

(** [parsePaginationParams] and [getPaginationMeta] of
    [utils/response.utils]; the file is not part of the sources, so both are
    parameters of the controller. *)
Class ResponseUtils := {
  PaginationMeta : Type;
  parsePaginationParams : option jsstring -> option jsstring -> Z * Z;
  getPaginationMeta : Z -> Z -> Z -> PaginationMeta
}.

(** Values of a lean document's fields: a string, a number or an array of
    strings. *)
Inductive Value :=
| VStr (s : jsstring)
| VNum (n : Z)
| VArr (vs : list jsstring).

Record Doc := {
  _id : jsstring;
  fields : gmap string Value
}.

(** A row of the [$group] stage: [{ _id: string; count: number }]. *)
Record GroupRow := {
  group_id : jsstring;
  group_count : Z
}.

Inductive Collection := HomestayModel | GuideModel | ProductModel.

Section Queries.
Context {E : RegExpEngine}.

(** One entry of a filter object: [{ path: 'literal' }], [{ path: regex }]
    or [{ $or: [{ path: regex }, ...] }].  The entries of one filter are
    conjoined. *)
Inductive Cond :=
| Is (path : string) (v : jsstring)
| Matches (path : string) (r : RegExp)
| Or (alts : list (string * RegExp)).

Definition Filter : Type := list Cond.

Inductive Stage :=
| Match_ (f : Filter)
| GroupCount (path : string)
| Limit (n : Z).

(** The operations the controller sends to the database. *)
Inductive Query :=
| Find (m : Collection) (filter : Filter) (select : list string)
       (skip : option Z) (limit : Z)
| CountDocuments (m : Collection) (filter : Filter)
| Aggregate (m : Collection) (pipeline : list Stage).

Definition collectionOf (q : Query) : Collection :=
  match q with
  | Find m _ _ _ _ => m
  | CountDocuments m _ => m
  | Aggregate m _ => m
  end.

(** The document-query layer: each operation settles with a value or
    rejects. *)
Class Driver := {
  find : Collection -> Filter -> list string -> option Z -> Z ->
         Result (list Doc);
  countDocuments : Collection -> Filter -> Result Z;
  aggregate : Collection -> list Stage -> Result (list GroupRow)
}.

(** What the controller relies on from [.limit(n)] and [{ $limit: n }] for a
    positive [n]: no more than [n] results. *)
Definition honoursLimit (D : Driver) : Prop :=
  (forall m f sel sk lim docs,
      0 < lim -> find m f sel sk lim = Fulfilled docs ->
      Z.of_nat (length docs) <= lim) /\
  (forall m stages n rows,
      0 < n -> aggregate m (stages ++ [Limit n]) = Fulfilled rows ->
      Z.of_nat (length rows) <= n).

(** [q] was rejected by the driver. *)
Definition rejects (D : Driver) (q : Query) : Prop :=
  match q with
  | Find m f sel sk lim => exists e, find m f sel sk lim = Rejected e
  | CountDocuments m f => exists e, countDocuments m f = Rejected e
  | Aggregate m p => exists e, aggregate m p = Rejected e
  end.

(** *** Promises

    A promise is modelled by the queries its creation sent and the value it
    settles with.  All promises of a handler are created before the first
    [await], so every query is sent whether or not another one rejects. *)
Record Promise (A : Type) := {
  issued : list Query;
  settled : Result A
}.
Arguments issued {A} p.
Arguments settled {A} p.

Definition resolve {A} (a : A) : Promise A :=
  {| issued := []; settled := Fulfilled a |}.

(** [p.then(f)], where [f] may throw. *)
Definition then_ {A B} (p : Promise A) (f : A -> Result B) : Promise B :=
  {| issued := issued p;
     settled := match settled p with
                | Fulfilled a => f a
                | Rejected e => Rejected e
                end |}.

(** [Promise.all([p1, p2])]. *)
Definition all2 {A B} (p1 : Promise A) (p2 : Promise B) : Promise (A * B) :=
  {| issued := issued p1 ++ issued p2;
     settled := match settled p1, settled p2 with
                | Fulfilled a, Fulfilled b => Fulfilled (a, b)
                | Rejected e, _ => Rejected e
                | _, Rejected e => Rejected e
                end |}.

(** [Promise.all] of an array of three promises, as [searchPromises] and
    [countPromises] always are. *)
Definition all3 {A} (ps : Promise A * Promise A * Promise A)
  : Promise (A * A * A) :=
  let '(p1, p2, p3) := ps in all2 (all2 p1 p2) p3.

(** [Promise.all([p1, p2, p3, p4])]. *)
Definition all4 {A B C D'} (p1 : Promise A) (p2 : Promise B)
    (p3 : Promise C) (p4 : Promise D') : Promise (A * B * C * D') :=
  all2 (all2 (all2 p1 p2) p3) p4.

Context {D : Driver}.

(** [Model.find(filter).select(fields).skip(s).limit(n).lean()] *)
Definition findLean (m : Collection) (f : Filter) (sel : list string)
    (sk : option Z) (lim : Z) : Promise (list Doc) :=
  {| issued := [Find m f sel sk lim]; settled := find m f sel sk lim |}.

Definition countDocuments_ (m : Collection) (f : Filter) : Promise Z :=
  {| issued := [CountDocuments m f]; settled := countDocuments m f |}.

Definition aggregate_ (m : Collection) (p : list Stage)
  : Promise (list GroupRow) :=
  {| issued := [Aggregate m p]; settled := aggregate m p |}.

(** A promise is strict when the rejection of any query it sent rejects
    it. *)
Definition strict {A} (p : Promise A) : Prop :=
  forall qy, In qy (issued p) -> rejects D qy -> exists e, settled p = Rejected e.

End Queries.

Arguments issued {E A} p.
Arguments settled {E A} p.

(** *** Requests and responses *)

(** [req.query], with the casts of the source: every parameter is a string
    or absent. *)
Record Request := {
  q : option jsstring;
  type : option jsstring;
  page : option jsstring;
  limit : option jsstring
}.

Record FieldError := {
  field : string;
  message : string
}.

Record Total := {
  total_homestays : Z;
  total_guides : Z;
  total_products : Z;
  overall : Z
}.

Record Results := {
  homestays : list Doc;
  guides : list Doc;
  products : list Doc;
  total : Total
}.

Record Suggestion := {
  text : option Value;
  category : string;
  id : option jsstring;
  count : option Z
}.

Section Controller.
Context {E : RegExpEngine} {U : ResponseUtils} {D : Driver}.

Inductive Payload :=
| SearchPayload (results : Results) (query : jsstring)
                (pagination : PaginationMeta)
| SuggestionsPayload (suggestions : list Suggestion).

(** The call a handler makes on [res]. *)
Inductive Response :=
| sendSuccess (data : Payload)
| sendError (msg : string) (statusCode : Z) (errors : option (list FieldError)).

(** What one run of a handler did: its response, the queries it sent, in
    order, and what it wrote with [console.error]. *)
Record Outcome := {
  response : Response;
  queries : list Query;
  console : list (string * Error)
}.

(** [s || ''] and [s || 'all'] on an optional string: absent and empty are
    falsy. *)
Definition orString (s : option jsstring) (d : jsstring) : jsstring :=
  match s with
  | Some (c :: s') => c :: s'
  | _ => d
  end.

Definition validationFailed : Response :=
  sendError "Validation failed" 400
    (Some [ {| field := "q";
               message := "Search query must be at least 2 characters" |} ]).

(** The filter objects of the source. *)
Definition homestayFilter (searchRegex : RegExp) : Filter :=
  [ Is "status" (lit "active");
    Or [ ("title", searchRegex); ("description", searchRegex);
         ("location.district", searchRegex);
         ("location.address", searchRegex) ] ].

Definition guideFilter (searchRegex : RegExp) : Filter :=
  [ Or [ ("name", searchRegex); ("bio", searchRegex);
         ("specializations", searchRegex);
         ("location.district", searchRegex) ] ].

Definition productFilter (searchRegex : RegExp) : Filter :=
  [ Or [ ("title", searchRegex); ("description", searchRegex);
         ("category", searchRegex) ] ].

(** [x.images?.slice(0, 1) || []].  An absent field gives [[]]; an array
    its first element at most; a string its first character, or [[]] when
    it is empty; a number has no [slice], and the call throws. *)
Definition firstImage (x : Doc) : Result Value :=
  match fields x !! "images" with
  | None => Fulfilled (VArr [])
  | Some (VArr imgs) => Fulfilled (VArr (take 1 imgs))
  | Some (VStr s) =>
      match take 1 s with
      | [] => Fulfilled (VArr [])
      | c => Fulfilled (VStr c)
      end
  | Some (VNum _) => Rejected (TypeError "slice is not a function")
  end.

(** [{ ...x, type: tag, images: x.images?.slice(0, 1) || [] }] *)
Definition withTypeAndImage (tag : string) (x : Doc) : Result Doc :=
  match firstImage x with
  | Fulfilled img =>
      Fulfilled {| _id := _id x;
                   fields := <["images" := img]>
                               (<["type" := VStr (lit tag)]> (fields x)) |}
  | Rejected e => Rejected e
  end.

(** [{ ...x, type: tag }] *)
Definition withType (tag : string) (x : Doc) : Doc :=
  {| _id := _id x; fields := <["type" := VStr (lit tag)]> (fields x) |}.

(** [xs.map(f)] for a callback that may throw. *)
Fixpoint mapThrowing {A B} (f : A -> Result B) (xs : list A)
  : Result (list B) :=
  match xs with
  | [] => Fulfilled []
  | x :: xs' =>
      match f x with
      | Fulfilled y =>
          match mapThrowing f xs' with
          | Fulfilled ys => Fulfilled (y :: ys)
          | Rejected e => Rejected e
          end
      | Rejected e => Rejected e
      end
  end.

Definition searchError (e : Error) (sent : list Query) : Outcome :=
  {| response := sendError "Failed to perform search" 500 None;
     queries := sent;
     console := [("Error in unified search:", e)] |}.

(** [type === 'all' || type === t] *)
Definition isType (type : jsstring) (t : string) : bool :=
  bool_decide (type = lit "all") || bool_decide (type = lit t).

(** The array [searchPromises] after its three pushes. *)
Definition searchPromises (type : jsstring) (searchRegex : RegExp)
    (page limit : Z)
  : Promise (list Doc) * Promise (list Doc) * Promise (list Doc) :=
  ( (if isType type "homestays" then
       then_ (findLean HomestayModel (homestayFilter searchRegex)
                ["title"; "description"; "location.district";
                 "location.state"; "pricing.basePrice"; "images"]
                (Some ((page - 1) * limit)) limit)
             (mapThrowing (withTypeAndImage "homestay"))
     else resolve []),
    (if isType type "guides" then
       then_ (findLean GuideModel (guideFilter searchRegex)
                ["name"; "bio"; "specializations"; "pricing.fullDay"]
                (Some ((page - 1) * limit)) limit)
             (fun results => Fulfilled (map (withType "guide") results))
     else resolve []),
    (if isType type "products" then
       then_ (findLean ProductModel (productFilter searchRegex)
                ["title"; "description"; "category"; "price.amount";
                 "images"]
                (Some ((page - 1) * limit)) limit)
             (mapThrowing (withTypeAndImage "product"))
     else resolve []) ).

(** The array [countPromises] after its three pushes. *)
Definition countPromises (type : jsstring) (searchRegex : RegExp)
  : Promise Z * Promise Z * Promise Z :=
  ( (if isType type "homestays" then
       countDocuments_ HomestayModel (homestayFilter searchRegex)
     else resolve 0),
    (if isType type "guides" then
       countDocuments_ GuideModel (guideFilter searchRegex)
     else resolve 0),
    (if isType type "products" then
       countDocuments_ ProductModel (productFilter searchRegex)
     else resolve 0) ).

(** [GET /api/search] *)
Definition unifiedSearch (req : Request) : Outcome :=
  let query := trim (orString (q req) []) in
  let type := orString (type req) (lit "all") in
  let '(page, limit) := parsePaginationParams (page req) (limit req) in
  if (length query <? 2)%nat then
    {| response := validationFailed; queries := []; console := [] |}
  else
    match newRegExp query "i" with
    | None => searchError (SyntaxError query) []
    | Some searchRegex =>
        let awaited :=
          all2 (all3 (searchPromises type searchRegex page limit))
               (all3 (countPromises type searchRegex)) in
        match settled awaited with
        | Fulfilled ((homestays, guides, products),
                     (homestaysCount, guidesCount, productsCount)) =>
            let total :=
              {| total_homestays := homestaysCount;
                 total_guides := guidesCount;
                 total_products := productsCount;
                 overall := homestaysCount + guidesCount + productsCount |} in
            {| response :=
                 sendSuccess
                   (SearchPayload
                      {| homestays := homestays; guides := guides;
                         products := products; total := total |}
                      query
                      (getPaginationMeta page limit (overall total)));
               queries := issued awaited;
               console := [] |}
        | Rejected e => searchError e (issued awaited)
        end
    end.

Definition autocompleteError (e : Error) (sent : list Query) : Outcome :=
  {| response := sendError "Failed to get suggestions" 500 None;
     queries := sent;
     console := [("Error in autocomplete:", e)] |}.

Definition locationSuggestion (loc : GroupRow) : Suggestion :=
  {| text := Some (VStr (group_id loc)); category := "location";
     id := None; count := Some (group_count loc) |}.

(** [{ text: x.title, type: tag, id: String(x._id) }], and the same with
    [x.name] for a guide. *)
Definition docSuggestion (key tag : string) (x : Doc) : Suggestion :=
  {| text := fields x !! key; category := tag;
     id := Some (_id x); count := None |}.

(** The array [suggestions] after the four [forEach] loops. *)
Definition collectSuggestions (locations : list GroupRow)
    (homestays guides products : list Doc) : list Suggestion :=
  map locationSuggestion locations ++
  map (docSuggestion "title" "homestay") homestays ++
  map (docSuggestion "name" "guide") guides ++
  map (docSuggestion "title" "product") products.

(** The four queries of [autocomplete], in the order of the source's
    [Promise.all]. *)
Definition suggestionQueries (searchRegex : RegExp)
  : Promise (list Doc * list Doc * list Doc * list GroupRow) :=
  all4
    (findLean HomestayModel
       [Is "status" (lit "active"); Matches "title" searchRegex]
       ["title"] None 3)
    (findLean GuideModel [Matches "name" searchRegex] ["name"] None 3)
    (findLean ProductModel [Matches "title" searchRegex] ["title"] None 3)
    (aggregate_ HomestayModel
       [ Match_ [Matches "location.district" searchRegex];
         GroupCount "location.district";
         Limit 3 ]).

(** [GET /api/search/autocomplete] *)
Definition autocomplete (req : Request) : Outcome :=
  let query := trim (orString (q req) []) in
  if (length query <? 2)%nat then
    {| response := validationFailed; queries := []; console := [] |}
  else
    match newRegExp query "i" with
    | None => autocompleteError (SyntaxError query) []
    | Some searchRegex =>
        let awaited := suggestionQueries searchRegex in
        match settled awaited with
        | Fulfilled (homestays, guides, products, locations) =>
            let suggestions :=
              collectSuggestions locations homestays guides products in
            {| response := sendSuccess (SuggestionsPayload (take 10 suggestions));
               queries := issued awaited;
               console := [] |}
        | Rejected e => autocompleteError e (issued awaited)
        end
    end.

(** The regular expressions a query carries. *)
Definition condRegexes (c : Cond) : list RegExp :=
  match c with
  | Is _ _ => []
  | Matches _ r => [r]
  | Or alts => map snd alts
  end.

Definition filterRegexes (f : Filter) : list RegExp :=
  concat (map condRegexes f).

Definition stageRegexes (st : Stage) : list RegExp :=
  match st with
  | Match_ f => filterRegexes f
  | _ => []
  end.

Definition queryRegexes (qy : Query) : list RegExp :=
  match qy with
  | Find _ f _ _ _ => filterRegexes f
  | CountDocuments _ f => filterRegexes f
  | Aggregate _ p => concat (map stageRegexes p)
  end.

End Controller.

End Search.

(** ** Reference collaborators

    One implementation of each interface, on which the handlers can be
    run: a literal, case-insensitive pattern matcher, the response helpers as
    the specification describes them, and an in-memory document store with
    fault injection. *)

Module Reference.
Import Search.

(** ASCII lower-casing of one code unit. *)
Definition toLower (c : char16) : char16 :=
  if ((65 <=? c) && (c <=? 90))%N then (c + 32)%N else c.

Fixpoint isPrefix (p s : jsstring) : bool :=
  match p, s with
  | [], _ => true
  | a :: p', b :: s' => (a =? b)%N && isPrefix p' s'
  | _ :: _, [] => false
  end.

Fixpoint includes (p s : jsstring) : bool :=
  isPrefix p s ||
  match s with
  | [] => false
  | _ :: s' => includes p s'
  end.

(** Patterns without metacharacters; an opening parenthesis stands for every
    malformed pattern. *)
Definition literalEngine : RegExpEngine :=
  {| RegExp := jsstring;
     newRegExp := fun pattern _ =>
       if existsb (N.eqb 40) pattern then None
       else Some (map toLower pattern);
     test := fun r s => includes r (map toLower s) |}.

Fixpoint digitsValue (acc : Z) (s : jsstring) : option Z :=
  match s with
  | [] => Some acc
  | c :: s' =>
      if ((48 <=? c) && (c <=? 57))%N
      then digitsValue (10 * acc + Z.of_N (c - 48)) s'
      else None
  end.

Definition parseInt (s : option jsstring) : option Z :=
  match s with
  | Some (c :: s') => digitsValue 0 (c :: s')
  | _ => None
  end.

Record Meta := {
  meta_page : Z;
  meta_limit : Z;
  meta_total : Z
}.

(** Modelled from the spec: [parsePaginationParams] and [getPaginationMeta]
    of [utils/response.utils], which is not among the sources.  The parser
    "normalizes raw page/limit inputs into validated positive integers with
    default (1, 10) and a cap (100) on limit"; the metadata is computed "from
    (page, limit, total)". *)
Definition specUtils : ResponseUtils :=
  {| PaginationMeta := Meta;
     parsePaginationParams := fun rawPage rawLimit =>
       ( match parseInt rawPage with
         | Some n => if 1 <=? n then n else 1
         | None => 1
         end,
         match parseInt rawLimit with
         | Some n => if 1 <=? n then Z.min n 100 else 10
         | None => 10
         end );
     getPaginationMeta := fun page limit total =>
       {| meta_page := page; meta_limit := limit; meta_total := total |} |}.

(** The in-memory store: three collections and the set of operations that
    are made to fail. *)
Record Store := {
  homestayDocs : list Doc;
  guideDocs : list Doc;
  productDocs : list Doc;
  faulty : @Query literalEngine -> bool
}.

Definition docsOf (s : Store) (m : Collection) : list Doc :=
  match m with
  | HomestayModel => homestayDocs s
  | GuideModel => guideDocs s
  | ProductModel => productDocs s
  end.

(** A regular expression matches a string field, or some element of an
    array field. *)
Definition fieldMatches (r : jsstring) (v : option Value) : bool :=
  match v with
  | Some (VStr s) => @test literalEngine r s
  | Some (VArr xs) => existsb (@test literalEngine r) xs
  | _ => false
  end.

Definition fieldIs (w : jsstring) (v : option Value) : bool :=
  match v with
  | Some (VStr s) => bool_decide (s = w)
  | Some (VArr xs) => existsb (fun s => bool_decide (s = w)) xs
  | _ => false
  end.

Definition condHolds (d : Doc) (c : @Cond literalEngine) : bool :=
  match c with
  | Is path w => fieldIs w (fields d !! path)
  | Matches path r => fieldMatches r (fields d !! path)
  | Or alts =>
      existsb (fun alt : string * jsstring =>
                 fieldMatches alt.2 (fields d !! alt.1)) alts
  end.

Definition filterHolds (f : @Filter literalEngine) (d : Doc) : bool :=
  forallb (condHolds d) f.

(** [.select(paths)]: [_id] and the listed paths. *)
Definition project (sel : list string) (d : Doc) : Doc :=
  {| _id := _id d;
     fields := filter (fun kv : string * Value => kv.1 ∈ sel) (fields d) |}.

(** [$group] by a string field with [count: { $sum: 1 }], groups in order of
    first occurrence. *)
Fixpoint bump (key : jsstring) (rows : list GroupRow) : list GroupRow :=
  match rows with
  | [] => [ {| group_id := key; group_count := 1 |} ]
  | r :: rows' =>
      if bool_decide (group_id r = key)
      then {| group_id := key; group_count := group_count r + 1 |} :: rows'
      else r :: bump key rows'
  end.

Definition groupCount (path : string) (ds : list Doc) : list GroupRow :=
  fold_left (fun rows d =>
               match fields d !! path with
               | Some (VStr key) => bump key rows
               | _ => rows
               end) ds [].

Definition unavailable : Error := MongoError (lit "unavailable").

(** MongoDB's reading of skip and limit: a negative skip is refused, a limit
    of [0] is no limit, a negative limit counts as its absolute value. *)
Definition memoryDriver (s : Store) : @Driver literalEngine :=
  {| find := fun m f sel sk lim =>
       if faulty s (Find m f sel sk lim) then Rejected unavailable
       else if default 0 sk <? 0 then Rejected (MongoError (lit "bad skip"))
       else
         let matched := List.filter (filterHolds f) (docsOf s m) in
         let skipped := drop (Z.to_nat (default 0 sk)) matched in
         let limited :=
           if lim =? 0 then skipped
           else take (Z.to_nat (Z.abs lim)) skipped in
         Fulfilled (map (project sel) limited);
     countDocuments := fun m f =>
       if faulty s (CountDocuments m f) then Rejected unavailable
       else Fulfilled (Z.of_nat (length (List.filter (filterHolds f) (docsOf s m))));
     aggregate := fun m p =>
       if faulty s (Aggregate m p) then Rejected unavailable
       else
         match p with
         | [Match_ f; GroupCount path; Limit n] =>
             if n <=? 0 then Rejected (MongoError (lit "bad limit"))
             else
               Fulfilled
                 (take (Z.to_nat n)
                    (groupCount path
                       (List.filter (filterHolds f) (docsOf s m))))
         | _ => Rejected (MongoError (lit "unsupported pipeline"))
         end |}.

(** Sample data. *)
Definition doc (oid : string) (kvs : list (string * Value)) : Doc :=
  {| _id := lit oid; fields := list_to_map kvs |}.

Definition str (s : string) : Value := VStr (lit s).

Definition sampleHomestays : list Doc :=
  [ doc "h1" [("title", str "Ranchi Hill View"); ("status", str "active");
              ("location.district", str "Ranchi");
              ("images", VArr [lit "a.jpg"; lit "b.jpg"])];
    doc "h2" [("title", str "Ranchi Lake House"); ("status", str "active");
              ("location.district", str "Ranchi East")];
    doc "h3" [("title", str "Old Ranchi Home"); ("status", str "active");
              ("location.district", str "Ranchi West")];
    doc "h4" [("title", str "Ranchi Retreat"); ("status", str "active");
              ("location.district", str "Ranchi")];
    doc "h5" [("title", str "Ranchi Closed"); ("status", str "inactive");
              ("location.district", str "Ranchi")] ].

Definition sampleGuides : list Doc :=
  [ doc "g1" [("name", str "Ranchi Walks"); ("bio", str "City guide")];
    doc "g2" [("name", str "Ranchi Treks"); ("bio", str "Hill guide")];
    doc "g3" [("name", str "Ranchi Tales"); ("bio", str "Story walks")];
    doc "g4" [("name", str "Birsa Tours"); ("bio", str "From Ranchi")] ].

Definition sampleProducts : list Doc :=
  [ doc "p1" [("title", str "Ranchi Honey"); ("category", str "food")];
    doc "p2" [("title", str "Ranchi Silk"); ("category", str "craft")];
    doc "p3" [("title", str "Ranchi Lac Bangles"); ("category", str "craft")] ].

Definition sampleStore (faults : @Query literalEngine -> bool) : Store :=
  {| homestayDocs := sampleHomestays; guideDocs := sampleGuides;
     productDocs := sampleProducts; faulty := faults |}.

Definition noFaults : @Query literalEngine -> bool := fun _ => false.

Definition countsFail : @Query literalEngine -> bool :=
  fun q => match q with CountDocuments GuideModel _ => true | _ => false end.

Definition aggregateFails : @Query literalEngine -> bool :=
  fun q => match q with Aggregate _ _ => true | _ => false end.

Definition request (rawQ : string) (rawType rawPage rawLimit : option string)
  : Request :=
  {| q := Some (lit rawQ); type := lit <$> rawType;
     page := lit <$> rawPage; limit := lit <$> rawLimit |}.

(** Sample requests: a plain term, the same on page 2 with limit 5, the
    same restricted to guides, a term of one letter and a term of white
    space. *)
Definition ranchi : Request := request "ranchi" None None None.
Definition ranchiPage2 : Request :=
  request "  Ranchi " (Some "all") (Some "2") (Some "5").
Definition ranchiGuides : Request :=
  request "ranchi" (Some "guides") None None.
Definition oneLetter : Request :=
  request "r" (Some "guides") (Some "3") (Some "7").
Definition blanks : Request := request "     " None None None.

(** The two queries the fault injections above reject. *)
Definition ranchiPattern : @RegExp literalEngine := lit "ranchi".

Definition guideCount : @Query literalEngine :=
  CountDocuments GuideModel (guideFilter ranchiPattern).

Definition districtAggregate : @Query literalEngine :=
  Aggregate HomestayModel
    [ Match_ [Matches "location.district" ranchiPattern];
      GroupCount "location.district"; Limit 3 ].

Definition runSearch (s : Store) (req : Request) : Outcome :=
  @unifiedSearch literalEngine specUtils (memoryDriver s) req.

Definition runAutocomplete (s : Store) (req : Request) : Outcome :=
  @autocomplete literalEngine specUtils (memoryDriver s) req.

End Reference.


(** Sample bookings. *)

Module BookingSamples.
Import Booking.

Definition sampleGuests (t : option Z) : GuestCount :=
  {| adults := 2; children := None; total := t |}.

Definition sampleBooking (n : option Z) (t : option Z) : IBooking :=
  {| bookingNumber := lit "BK-0001";
     listingType := homestay;
     listingId := lit "h1";
     listingTitle := None;
     checkIn := Some (dateOnly 2024 1 1);
     checkOut := Some (dateOnly 2024 1 4);
     nights := n;
     guests := Some (sampleGuests t);
     guestDetails := {| name := lit "A"; email := lit "a@b.c";
                        phone := lit "1" |};
     specialRequests := None;
     pricing := {| basePrice := 100; cleaningFee := None; serviceFee := None;
                   taxes := None; pricingTotal := 300 |};
     status := pending;
     paymentStatus := paymentPending;
     cancellationReason := None;
     cancelledAt := None |}.

End BookingSamples.

(** Further sample data. *)

Module MoreSamples.
Import Booking BookingSamples.

(** A booking without a check-out date. *)
Definition openEnded (n : option Z) : IBooking :=
  {| bookingNumber := lit "BK-0002";
     listingType := guide;
     listingId := lit "g1";
     listingTitle := None;
     checkIn := Some (dateOnly 2024 3 1);
     checkOut := None;
     nights := n;
     guests := Some (sampleGuests None);
     guestDetails := guestDetails (sampleBooking None None);
     specialRequests := None;
     pricing := pricing (sampleBooking None None);
     status := pending;
     paymentStatus := paymentPending;
     cancellationReason := None;
     cancelledAt := None |}.

(** A booking from [ci] to [co], in milliseconds, with [nights] and
    [guests.total] as given. *)
Definition stay (ci co : Date) (n t : option Z) : IBooking :=
  {| bookingNumber := lit "BK-0003";
     listingType := homestay;
     listingId := lit "h1";
     listingTitle := None;
     checkIn := Some ci;
     checkOut := Some co;
     nights := n;
     guests := Some {| adults := 1; children := Some 2; total := t |};
     guestDetails := guestDetails (sampleBooking None None);
     specialRequests := None;
     pricing := pricing (sampleBooking None None);
     status := pending;
     paymentStatus := paymentPending;
     cancellationReason := None;
     cancelledAt := None |}.

(** Two dates more than [2 ^ 53] milliseconds apart, both within the range
    of [Date], and a party of [2 ^ 53] adults and one child. *)
Definition farApart : IBooking :=
  stay (-8640000000000000) 4320000000000001 None None.



End MoreSamples.

(** Shapes of search results, and further sample requests. *)

Module SearchShapes.
Import Search.

(** What [x.images?.slice(0, 1) || []] leaves in [images]: an array of at
    most one element, or one character of a string. *)
Definition atMostOneImage (v : Value) : Prop :=
  match v with
  | VArr imgs => (length imgs <= 1)%nat
  | VStr s => length s = 1%nat
  | VNum _ => False
  end.

(** What [images] becomes in a result item, given the stored value: an
    empty array when there is none or it is empty, otherwise the array of
    its first element alone (the first character, for a string).  A number
    has no [slice]. *)
Definition firstOnly (stored : option Value) (img : Value) : Prop :=
  match stored with
  | None => img = VArr []
  | Some (VArr []) => img = VArr []
  | Some (VArr (first :: _)) => img = VArr [first]
  | Some (VStr []) => img = VArr []
  | Some (VStr (c :: _)) => img = VStr [c]
  | Some (VNum _) => False
  end.

(** A result item [h] built from a fetched document [d] by
    [{ ...d, type: tag }], with [images] cut down to its first element when
    [cut] is set. *)
Definition builtFrom (tag : string) (cut : bool) (d h : Doc) : Prop :=
  _id h = _id d /\
  fields h !! "type" = Some (VStr (lit tag)) /\
  (forall k : string, k <> "type" -> k <> "images" ->
                      fields h !! k = fields d !! k) /\
  (if cut
   then exists img, fields h !! "images" = Some img /\
                    firstOnly (fields d !! "images") img
   else fields h !! "images" = fields d !! "images").

(** A suggestion is either a location, with a text and a count and no id,
    or an entity, with an id and no count. *)
Definition wellShaped (s : Suggestion) : Prop :=
  (category s = "location" /\ id s = None /\
   (exists t, text s = Some (VStr t)) /\ exists c, count s = Some c) \/
  (In (category s) ["homestay"; "guide"; "product"] /\
   (exists i, id s = Some i) /\ count s = None).

Section Shapes.
Context {E : RegExpEngine}.

(** Which status condition a query carries: homestay fetches and counts
    hold [status: 'active'], guide and product queries hold no literal
    condition, and an aggregate matches on regular expressions only. *)
Definition onlyRegexes (f : Filter) : Prop :=
  forall c, In c f -> match c with Is _ _ => False | _ => True end.

Definition statusDiscipline (qy : Query) : Prop :=
  match qy with
  | Find HomestayModel f _ _ _ | CountDocuments HomestayModel f =>
      In (Is "status" (lit "active")) f
  | Find _ f _ _ _ | CountDocuments _ f => onlyRegexes f
  | Aggregate _ p => forall f, In (Match_ f) p -> onlyRegexes f
  end.

End Shapes.

End SearchShapes.

Module SearchSamples.
Import Search Reference.

Definition malformed : Request := request "((ranchi" None None None.
Definition hotels : Request :=
  request "ranchi" (Some "hotels") (Some "1") (Some "2").
Definition ranchiAll : Request := request "ranchi" (Some "all") None None.
Definition ranchiLater : Request :=
  request "ranchi" None (Some "3") (Some "1").

(** One letter followed by blanks. *)
Definition trailingBlanks : Request := request "r  " None None None.

(** A store of two homestays, one with two images and one with none, and a
    search for homestays only. *)
Definition imageStore : Store :=
  {| homestayDocs :=
       [ doc "h1" [("title", str "Ranchi Hill View"); ("status", str "active");
                   ("images", VArr [lit "a.jpg"; lit "b.jpg"])];
         doc "h2" [("title", str "Ranchi Lake House");
                   ("status", str "active")] ];
     guideDocs := [];
     productDocs := [];
     faulty := noFaults |}.

Definition ranchiHomestays : Request :=
  request "ranchi" (Some "homestays") None None.

End SearchSamples.

(** * Properties of the arithmetic *)

Module NumberProofs.
Import JsNumber.

Lemma roundHalfEven_near (a b : Z) :
  0 < b -> - b <= 2 * (b * roundHalfEven a b - a) <= b.
Proof.
  intros Hb. unfold roundHalfEven.
  pose proof (Z.div_mod a b ltac:(lia)) as Hdm.
  pose proof (Z.mod_pos_bound a b Hb) as Hr.
  destruct (Z.compare_spec (2 * (a mod b)) b) as [He|Hl|Hg];
    [destruct (Z.even (a / b))|..]; nia.
Qed.

Lemma roundHalfEven_exact (k b : Z) : 0 < b -> roundHalfEven (k * b) b = k.
Proof.
  intros Hb. unfold roundHalfEven.
  rewrite Z.mod_mul, Z.div_mul by lia.
  destruct (Z.compare_spec (2 * 0) b); lia.
Qed.

Lemma roundHalfEven_mono (a a' b : Z) :
  0 < b -> a <= a' -> roundHalfEven a b <= roundHalfEven a' b.
Proof.
  intros Hb Hle.
  destruct (Z.eq_dec a a') as [->|Hne]; [lia|].
  pose proof (roundHalfEven_near a b Hb).
  pose proof (roundHalfEven_near a' b Hb).
  nia.
Qed.

Lemma roundHalfEven_one (a : Z) : roundHalfEven a 1 = a.
Proof. rewrite <- (Z.mul_1_r a) at 1. apply roundHalfEven_exact. lia. Qed.

(** [ilog2 a b] is not above the logarithm of [|a| / b]. *)
Lemma ilog2_lower (a b : Z) :
  a <> 0 -> 0 < b -> 0 <= ilog2 a b -> b * 2 ^ ilog2 a b <= Z.abs a.
Proof.
  intros Ha Hb. unfold ilog2.
  set (c := Z.log2 (Z.abs a) - Z.log2 b).
  destruct (Z.leb_spec (b * 2 ^ Z.max 0 c) (Z.abs a * 2 ^ Z.max 0 (- c)))
    as [Hle|Hgt]; intros Hc.
  - rewrite Z.max_r in Hle by lia.
    rewrite Z.max_l in Hle by lia. lia.
  - pose proof (Z.log2_spec (Z.abs a) ltac:(lia)) as [Hla _].
    pose proof (Z.log2_spec b Hb) as [_ Hlb].
    pose proof (Z.log2_nonneg b) as Hnb.
    assert (Hpow : 2 ^ Z.log2 (Z.abs a) =
                   2 ^ Z.succ (Z.log2 b) * 2 ^ (c - 1)).
    { rewrite <- Z.pow_add_r by lia. f_equal. lia. }
    assert (0 < 2 ^ (c - 1)) by (apply Z.pow_pos_nonneg; lia).
    nia.
Qed.

Lemma ilog2_one (z : Z) : z <> 0 -> ilog2 z 1 = Z.log2 (Z.abs z).
Proof.
  intros Hz. unfold ilog2. cbn [Z.log2]. rewrite Z.sub_0_r.
  pose proof (Z.log2_nonneg (Z.abs z)) as Hn.
  pose proof (Z.log2_spec (Z.abs z) ltac:(lia)) as [Hl _].
  rewrite Z.max_r, Z.max_l by lia.
  destruct (Z.leb_spec (1 * 2 ^ Z.log2 (Z.abs z)) (Z.abs z * 2 ^ 0)); lia.
Qed.

(** Every integer up to [2 ^ 53] in magnitude is a double. *)
Lemma integer_exact (z : Z) :
  Z.abs z <= 2 ^ 53 -> integerOf (nearestDouble z 1) = z.
Proof.
  intros Hz. unfold nearestDouble.
  destruct (Z.eqb_spec z 0) as [->|Hne]; [reflexivity|].
  rewrite (ilog2_one z Hne).
  pose proof (Z.log2_spec (Z.abs z) ltac:(lia)) as [Hl Hu].
  pose proof (Z.log2_nonneg (Z.abs z)) as Hn.
  assert (Hlog : Z.log2 (Z.abs z) <= 53).
  { rewrite <- (Z.log2_pow2 53) by lia. now apply Z.log2_le_mono. }
  destruct (Z.leb_spec 0 (Z.log2 (Z.abs z) - 52)) as [He|He];
    cbn [integerOf].
  - assert (Hcase : Z.log2 (Z.abs z) = 52 \/ Z.log2 (Z.abs z) = 53) by lia.
    destruct Hcase as [Hc|Hc]; rewrite Hc in *.
    + change (52 - 52) with 0. cbn. rewrite roundHalfEven_one. lia.
    + change (53 - 52) with 1. cbn [Z.leb Z.compare].
      assert (Hzz : z = 2 ^ 53 \/ z = - 2 ^ 53) by lia.
      destruct Hzz as [-> | ->]; vm_compute; reflexivity.
  - destruct (Z.leb_spec 0 (Z.log2 (Z.abs z) - 52)) as [He'|_]; [lia|].
    rewrite roundHalfEven_one.
    apply Z.div_mul. apply Z.pow_nonzero; lia.
Qed.


Lemma jsSub_exact (a b : Z) : Z.abs (a - b) <= 2 ^ 53 -> jsSub a b = a - b.
Proof. apply integer_exact. Qed.

Lemma ceil_unique (m s n : Z) :
  0 < s -> (n - 1) * s < m <= n * s -> - ((- m) / s) = n.
Proof.
  intros Hs Hm.
  pose proof (Z.div_mod (- m) s ltac:(lia)) as Hdm.
  pose proof (Z.mod_pos_bound (- m) s Hs) as Hr.
  nia.
Qed.

(** Dividing a number of milliseconds up to [2 ^ 53] in magnitude by the
    length of a day and rounding the quotient to a double does not move it
    across an integer: the quotient is scaled by at least [2 ^ 26], and half
    a unit in the last place is less than [1 / 86400000]. *)
Lemma ceil_exact (d n : Z) :
  Z.abs d <= 2 ^ 53 ->
  (n - 1) * 86400000 < d <= n * 86400000 ->
  Math_ceil (jsDiv d 86400000) = n.
Proof.
  intros Hd Hn. unfold jsDiv, nearestDouble.
  destruct (Z.eqb_spec d 0) as [->|Hne]; [cbn; lia|].
  assert (HL : ilog2 d 86400000 <= 26).
  { destruct (Z.le_gt_cases (ilog2 d 86400000) 26) as [|Hbig]; [assumption|].
    pose proof (ilog2_lower d 86400000 Hne ltac:(lia) ltac:(lia)) as Hlow.
    assert (2 ^ 27 <= 2 ^ ilog2 d 86400000)
      by (apply Z.pow_le_mono_r; lia).
    change (2 ^ 27) with 134217728 in *.
    change (2 ^ 53) with 9007199254740992 in *.
    lia. }
  destruct (Z.leb_spec 0 (ilog2 d 86400000 - 52)) as [He|He]; [lia|].
  cbn [Math_ceil].
  destruct (Z.leb_spec 0 (ilog2 d 86400000 - 52)) as [He'|_]; [lia|].
  set (s := 2 ^ (- (ilog2 d 86400000 - 52))).
  assert (Hs : 2 ^ 26 <= s) by (apply Z.pow_le_mono_r; lia).
  change (2 ^ 26) with 67108864 in Hs.
  apply ceil_unique; [lia|].
  pose proof (roundHalfEven_near (d * s) 86400000 ltac:(lia)) as Hnear.
  pose proof (roundHalfEven_mono (d * s) ((n * s) * 86400000) 86400000
                ltac:(lia) ltac:(nia)) as Hmono.
  rewrite roundHalfEven_exact in Hmono by lia.
  split; [nia | lia].
Qed.

End NumberProofs.

(** * Properties of the booking hook *)

Module BookingProofs.
Import JsNumber Booking BookingSamples MoreSamples NumberProofs.

(** Within [2 ^ 53] milliseconds the hook's day count is the exact
    ceiling. *)
Lemma ceilDays_isCeiling (d : Z) :
  Z.abs d <= 2 ^ 53 -> isCeilingOf (ceilDays d) d msPerDay.
Proof.
  intros Hd. unfold ceilDays.
  assert (Hn : isCeilingOf (- ((- d) / msPerDay)) d msPerDay).
  { unfold isCeilingOf.
    assert (Hpos : 0 < msPerDay) by reflexivity.
    pose proof (Z.div_mod (- d) msPerDay) as Hdm.
    pose proof (Z.mod_pos_bound (- d) msPerDay Hpos) as Hb.
    nia. }
  change msPerDay with 86400000 in *.
  now rewrite (ceil_exact d _ Hd Hn).
Qed.

Lemma isCeilingOf_unique (n n' num den : Z) :
  0 < den -> isCeilingOf n num den -> isCeilingOf n' num den -> n = n'.
Proof. unfold isCeilingOf. intros Hden H1 H2. nia. Qed.

Lemma truthy_nonzero (z : Z) : z <> 0 -> truthy (Some z) = true.
Proof. intros Hz. unfold truthy. apply Z.eqb_neq in Hz. now rewrite Hz. Qed.


(** The second statement of the hook does not touch [nights], the first
    does not touch [guests]. *)
Lemma deriveTotal_nights (b : IBooking) : nights (deriveTotal b) = nights b.
Proof.
  unfold deriveTotal. destruct (guests b) as [g|]; [|reflexivity].
  destruct (negb (truthy (total g))); reflexivity.
Qed.

Lemma deriveNights_guests (b : IBooking) : guests (deriveNights b) = guests b.
Proof.
  unfold deriveNights.
  destruct (checkIn b), (checkOut b); try reflexivity.
  destruct (negb (truthy (nights b))); reflexivity.
Qed.

Lemma deriveNights_unset (b : IBooking) (ci co : Date) :
  truthy (nights b) = false -> checkIn b = Some ci -> checkOut b = Some co ->
  nights (deriveNights b) = Some (ceilDays (jsSub (getTime co) (getTime ci))).
Proof.
  intros Hn Hci Hco. unfold deriveNights. rewrite Hci, Hco, Hn. reflexivity.
Qed.

Lemma deriveNights_set (b : IBooking) :
  truthy (nights b) = true -> deriveNights b = b.
Proof.
  intros Hn. unfold deriveNights. rewrite Hn.
  destruct (checkIn b), (checkOut b); reflexivity.
Qed.


Lemma deriveTotal_set (b : IBooking) (g : GuestCount) :
  guests b = Some g -> truthy (total g) = true -> deriveTotal b = b.
Proof. intros Hg Ht. unfold deriveTotal. rewrite Hg, Ht. reflexivity. Qed.

(** C2 as stated fails for dates far apart: the difference of the two
    timestamps is itself a double.  From [-8640000000000000] to
    [4320000000000001], both dates of the range of [Date], the difference
    [12960000000000001] is rounded to [12960000000000000], which is
    [150000000] days exactly, and that is what the hook stores; the ceiling
    of the true quotient is [150000001]. *)
Lemma preSave_nights_rounded :
  nights farApart = None /\
  checkIn farApart = Some (-8640000000000000) /\
  checkOut farApart = Some 4320000000000001 /\
  nights (preSave farApart) = Some 150000000 /\
  ~ isCeilingOf 150000000 (4320000000000001 - -8640000000000000) 86400000 /\
  ~ (forall (b : IBooking) (ci co : Date),
        nights b = None -> checkIn b = Some ci -> checkOut b = Some co ->
        exists n, nights (preSave b) = Some n /\
                  isCeilingOf n (co - ci) 86400000).
Proof.
  assert (Hrun : nights (preSave farApart) = Some 150000000)
    by (vm_compute; reflexivity).
  assert (Hno : ~ isCeilingOf 150000000
                  (4320000000000001 - -8640000000000000) 86400000)
    by (unfold isCeilingOf; lia).
  repeat split; try reflexivity; try assumption.
  intros H.
  destruct (H farApart _ _ eq_refl eq_refl eq_refl) as (n & Hn & Hceil).
  rewrite Hrun in Hn. injection Hn as <-. exact (Hno Hceil).
Qed.

(** C2, amended.  When [nights] is unset, both dates are set and they are
    at most [2 ^ 53] milliseconds apart, the hook sets [nights] to the
    ceiling of [(checkOut - checkIn) / 86,400,000]; from 2024-01-01 to
    2024-01-04 that is [3]. *)
Theorem preSave_nights_is_ceiling :
  (forall (b : IBooking) (ci co : Date),
      nights b = None -> checkIn b = Some ci -> checkOut b = Some co ->
      Z.abs (co - ci) <= 2 ^ 53 ->
      exists n, nights (preSave b) = Some n /\
                isCeilingOf n (co - ci) 86400000) /\
  (forall b : IBooking,
      nights b = None ->
      checkIn b = Some (dateOnly 2024 1 1) ->
      checkOut b = Some (dateOnly 2024 1 4) ->
      nights (preSave b) = Some 3).
Proof.
  assert (Hgen : forall b ci co,
             nights b = None -> checkIn b = Some ci -> checkOut b = Some co ->
             nights (preSave b) = Some (ceilDays (jsSub co ci))).
  { intros b ci co Hn Hci Hco. unfold preSave.
    rewrite deriveTotal_nights.
    apply deriveNights_unset; [now rewrite Hn | assumption | assumption]. }
  split.
  - intros b ci co Hn Hci Hco Hd. exists (ceilDays (jsSub co ci)). split.
    + now apply Hgen.
    + rewrite (jsSub_exact co ci Hd). now apply ceilDays_isCeiling.
  - intros b Hn Hci Hco. rewrite (Hgen b _ _ Hn Hci Hco).
    vm_compute. reflexivity.
Qed.

Lemma preSave_nights_is_ceiling_witness :
  nights (preSave (sampleBooking None None)) = Some 3 /\
  exists n, nights (preSave (stay 1000 90000000 None None)) = Some n /\
            isCeilingOf n (90000000 - 1000) 86400000.
Proof.
  split.
  - apply (proj2 preSave_nights_is_ceiling (sampleBooking None None));
      reflexivity.
  - apply (proj1 preSave_nights_is_ceiling (stay 1000 90000000 None None));
      try reflexivity.
    vm_compute. discriminate.
Defined.




(** C1 as stated fails: a booking saved with [nights: 0] and
    [guests.total: 0] leaves the hook with [nights = 3] and
    [guests.total = 2], because [!this.nights] and [!this.guests.total] hold
    for [0]. *)
Lemma preSave_overwrites_zero :
  nights (sampleBooking (Some 0) (Some 0)) = Some 0 /\
  guestsTotal (sampleBooking (Some 0) (Some 0)) = Some 0 /\
  nights (preSave (sampleBooking (Some 0) (Some 0))) = Some 3 /\
  guestsTotal (preSave (sampleBooking (Some 0) (Some 0))) = Some 2 /\
  ~ (forall (b' : IBooking) (n : Z),
        nights b' = Some n -> nights (preSave b') = Some n) /\
  ~ (forall (b' : IBooking) (t : Z),
        guestsTotal b' = Some t -> guestsTotal (preSave b') = Some t).
Proof.
  repeat split; try reflexivity.
  - intros H. specialize (H (sampleBooking (Some 0) (Some 0)) 0 eq_refl).
    vm_compute in H. discriminate H.
  - intros H. specialize (H (sampleBooking (Some 0) (Some 0)) 0 eq_refl).
    vm_compute in H. discriminate H.
Qed.

(** C1, amended.  A supplied [nights] other than [0] and a supplied
    [guests.total] other than [0] are left as they are. *)
Theorem preSave_keeps_supplied_nonzero :
  forall b : IBooking,
    (forall n : Z, nights b = Some n -> n <> 0 ->
                   nights (preSave b) = Some n) /\
    (forall t : Z, guestsTotal b = Some t -> t <> 0 ->
                   guestsTotal (preSave b) = Some t).
Proof.
  intros b. split.
  - intros n Hn Hz. unfold preSave. rewrite deriveTotal_nights.
    rewrite deriveNights_set; [assumption|].
    rewrite Hn. now apply truthy_nonzero.
  - intros t Ht Hz. unfold preSave.
    unfold guestsTotal in Ht.
    destruct (guests b) as [g|] eqn:Hg; [|discriminate].
    rewrite (deriveTotal_set (deriveNights b) g).
    + unfold guestsTotal. now rewrite deriveNights_guests, Hg.
    + now rewrite deriveNights_guests.
    + rewrite Ht. now apply truthy_nonzero.
Qed.

Lemma preSave_keeps_supplied_nonzero_witness :
  nights (preSave (sampleBooking (Some 5) (Some 4))) = Some 5 /\
  guestsTotal (preSave (sampleBooking (Some 5) (Some 4))) = Some 4.
Proof.
  split.
  - apply (proj1 (preSave_keeps_supplied_nonzero
                    (sampleBooking (Some 5) (Some 4))) 5);
      [reflexivity | lia].
  - apply (proj2 (preSave_keeps_supplied_nonzero
                    (sampleBooking (Some 5) (Some 4))) 4);
      [reflexivity | lia].
Defined.

End BookingProofs.

(** * Properties of [trim] *)

Module StringProofs.

Lemma trimStart_split (s : jsstring) :
  exists pre, s = pre ++ trimStart s /\ forallb isWhiteSpace pre = true.
Proof.
  induction s as [|c s IH]; cbn.
  - exists []. split; reflexivity.
  - destruct (isWhiteSpace c) eqn:Hc.
    + destruct IH as (pre & Hs & Hpre). exists (c :: pre). split.
      * cbn. now rewrite <- Hs.
      * cbn. now rewrite Hc.
    + exists []. split; reflexivity.
Qed.

Lemma trimStart_head (s : jsstring) (c : char16) (t : jsstring) :
  trimStart s = c :: t -> isWhiteSpace c = false.
Proof.
  induction s as [|a s IH]; cbn; [discriminate|].
  destruct (isWhiteSpace a) eqn:Ha; [assumption|].
  intros [= -> _]. assumption.
Qed.

Lemma trimStart_fixed (c : char16) (t : jsstring) :
  isWhiteSpace c = false -> trimStart (c :: t) = c :: t.
Proof. intros Hc. cbn. now rewrite Hc. Qed.

Lemma trimStart_app_stop (s t : jsstring) (c : char16) :
  isWhiteSpace c = false ->
  trimStart (s ++ c :: t) = trimStart s ++ c :: t.
Proof.
  intros Hc. induction s as [|a s IH]; cbn.
  - now rewrite Hc.
  - destruct (isWhiteSpace a); [assumption | reflexivity].
Qed.

Lemma trimStart_whitespace (s : jsstring) :
  forallb isWhiteSpace s = true -> trimStart s = [].
Proof.
  induction s as [|c s IH]; cbn; [reflexivity|].
  intros [Hc Hs]%andb_prop. rewrite Hc. auto.
Qed.

Lemma trimStart_length (s : jsstring) :
  (length (trimStart s) <= length s)%nat.
Proof.
  induction s as [|c s IH]; cbn; [lia|].
  destruct (isWhiteSpace c); cbn; lia.
Qed.

Lemma trimEnd_length (s : jsstring) : (length (trimEnd s) <= length s)%nat.
Proof.
  unfold trimEnd. rewrite length_rev.
  etransitivity; [apply trimStart_length|]. now rewrite length_rev.
Qed.

Lemma trim_length (s : jsstring) : (length (trim s) <= length s)%nat.
Proof.
  unfold trim. etransitivity; [apply trimEnd_length | apply trimStart_length].
Qed.

Lemma trim_whitespace (s : jsstring) :
  forallb isWhiteSpace s = true -> trim s = [].
Proof. intros Hs. unfold trim. now rewrite trimStart_whitespace. Qed.

Lemma forallb_rev (p : char16 -> bool) (s : jsstring) :
  forallb p (rev s) = forallb p s.
Proof.
  induction s as [|c s IH]; cbn; [reflexivity|].
  rewrite forallb_app. cbn. rewrite IH. destruct (p c), (forallb p s); reflexivity.
Qed.

Lemma trimEnd_split (s : jsstring) :
  exists suf, s = trimEnd s ++ suf /\ forallb isWhiteSpace suf = true.
Proof.
  destruct (trimStart_split (rev s)) as (pre & Hs & Hpre).
  exists (rev pre). split.
  - unfold trimEnd. rewrite <- rev_app_distr, <- Hs. now rewrite rev_involutive.
  - now rewrite forallb_rev.
Qed.

(** [trim s] is [s] without a prefix and a suffix of white space. *)
Lemma trim_split (s : jsstring) :
  exists pre suf, s = pre ++ trim s ++ suf /\
                  forallb isWhiteSpace pre = true /\
                  forallb isWhiteSpace suf = true.
Proof.
  destruct (trimStart_split s) as (pre & Hs & Hpre).
  destruct (trimEnd_split (trimStart s)) as (suf & Ht & Hsuf).
  exists pre, suf. unfold trim. rewrite <- Ht. auto.
Qed.

(** Trimming at the end keeps a first code unit that is not white space. *)
Lemma trimEnd_cons (c : char16) (t : jsstring) :
  isWhiteSpace c = false -> trimEnd (c :: t) = c :: trimEnd t.
Proof.
  intros Hc. unfold trimEnd. cbn [rev].
  rewrite trimStart_app_stop by assumption.
  rewrite rev_app_distr. reflexivity.
Qed.

(** [trim s] neither starts nor ends with white space. *)
Lemma trim_head (s : jsstring) (c : char16) (t : jsstring) :
  trim s = c :: t -> isWhiteSpace c = false.
Proof.
  unfold trim. destruct (trimStart s) as [|a u] eqn:Hs.
  - discriminate.
  - pose proof (trimStart_head _ _ _ Hs) as Ha.
    rewrite (trimEnd_cons a u Ha). now intros [= <- _].
Qed.

Lemma trim_last (s : jsstring) (c : char16) (t : jsstring) :
  trim s = t ++ [c] -> isWhiteSpace c = false.
Proof.
  unfold trim, trimEnd. intros H.
  apply (f_equal (@rev char16)) in H.
  rewrite rev_involutive, rev_app_distr in H. cbn in H.
  now apply trimStart_head in H.
Qed.

Lemma trimEnd_fixed (t : jsstring) (c : char16) :
  isWhiteSpace c = false -> trimEnd (t ++ [c]) = t ++ [c].
Proof.
  intros Hc. unfold trimEnd. rewrite rev_app_distr. cbn.
  rewrite Hc. cbn. now rewrite rev_involutive.
Qed.

Lemma trim_idempotent (s : jsstring) : trim (trim s) = trim s.
Proof.
  destruct (trim s) as [|c t] eqn:Hs; [reflexivity|].
  pose proof (trim_head _ _ _ Hs) as Hc.
  unfold trim at 1. rewrite trimStart_fixed by assumption.
  assert (Hne : c :: t <> []) by discriminate.
  destruct (exists_last Hne) as (u & a & Hu). rewrite Hu in Hs |- *.
  apply trimEnd_fixed. exact (trim_last _ _ _ Hs).
Qed.

(** [trim] meets the specification of ECMAScript, and nothing else
    does. *)
Lemma trim_isTrimOf (raw : jsstring) : isTrimOf (trim raw) raw.
Proof.
  split; [|split].
  - apply trim_split.
  - intros c Hc. destruct (trim raw) as [|a t] eqn:Ht; [discriminate|].
    injection Hc as ->. exact (trim_head _ _ _ Ht).
  - intros c Hc. apply last_Some in Hc as [t Ht].
    exact (trim_last _ _ _ Ht).
Qed.

Lemma isTrimOf_unique (t raw : jsstring) : isTrimOf t raw -> t = trim raw.
Proof.
  intros ((pre & suf & -> & Hpre & Hsuf) & Hhead & Hlast).
  destruct t as [|c t'].
  - symmetry. apply trim_whitespace. cbn. rewrite forallb_app.
    now rewrite Hpre, Hsuf.
  - pose proof (Hhead c eq_refl) as Hc.
    unfold trim. cbn [app]. rewrite trimStart_app_stop by assumption.
    rewrite (trimStart_whitespace pre Hpre). cbn [app].
    assert (Hne : c :: t' <> []) by discriminate.
    destruct (exists_last Hne) as (u & a & Hu).
    change (c :: t' ++ suf) with ((c :: t') ++ suf). rewrite Hu in *.
    pose proof (Hlast a (last_snoc a u)) as Ha.
    unfold trimEnd. rewrite !rev_app_distr. cbn [rev app].
    rewrite trimStart_app_stop by assumption.
    rewrite trimStart_whitespace by now rewrite forallb_rev.
    cbn [app rev]. now rewrite rev_involutive.
Qed.

End StringProofs.

(** * Properties of the search controller *)

Module SearchProofs.
Import Search StringProofs.

Section Facts.
Context {E : RegExpEngine} {U : ResponseUtils} {D : Driver}.

(** ** Promises *)

Lemma all2_fulfilled {A B} (p1 : Promise A) (p2 : Promise B) a b :
  settled (all2 p1 p2) = Fulfilled (a, b) <->
  settled p1 = Fulfilled a /\ settled p2 = Fulfilled b.
Proof.
  unfold all2; cbn. destruct (settled p1), (settled p2); split;
    try (intros [H1 H2]); try intros H; try discriminate;
    try (injection H; intros; subst; auto); congruence.
Qed.

Lemma all3_fulfilled {A} (p1 p2 p3 : Promise A) a b c :
  settled (all3 (p1, p2, p3)) = Fulfilled (a, b, c) <->
  settled p1 = Fulfilled a /\ settled p2 = Fulfilled b /\
  settled p3 = Fulfilled c.
Proof.
  unfold all3. rewrite all2_fulfilled, all2_fulfilled. tauto.
Qed.

Lemma all4_fulfilled {A B C F} (p1 : Promise A) (p2 : Promise B)
    (p3 : Promise C) (p4 : Promise F) a b c d :
  settled (all4 p1 p2 p3 p4) = Fulfilled (a, b, c, d) <->
  settled p1 = Fulfilled a /\ settled p2 = Fulfilled b /\
  settled p3 = Fulfilled c /\ settled p4 = Fulfilled d.
Proof.
  unfold all4. rewrite !all2_fulfilled. tauto.
Qed.

Lemma strict_resolve {A} (a : A) : strict (resolve a).
Proof. intros qy []. Qed.

Lemma strict_findLean m f sel sk lim : strict (findLean m f sel sk lim).
Proof. intros qy [<-|[]] Hrej. exact Hrej. Qed.

Lemma strict_countDocuments m f : strict (countDocuments_ m f).
Proof. intros qy [<-|[]] Hrej. exact Hrej. Qed.

Lemma strict_aggregate m p : strict (aggregate_ m p).
Proof. intros qy [<-|[]] Hrej. exact Hrej. Qed.

Lemma strict_then {A B} (p : Promise A) (f : A -> Result B) :
  strict p -> strict (then_ p f).
Proof.
  intros Hp qy Hin Hrej. destruct (Hp qy Hin Hrej) as [e He].
  exists e. cbn. now rewrite He.
Qed.

Lemma strict_all2 {A B} (p1 : Promise A) (p2 : Promise B) :
  strict p1 -> strict p2 -> strict (all2 p1 p2).
Proof.
  intros H1 H2 qy Hin Hrej. cbn in Hin. apply in_app_iff in Hin.
  destruct Hin as [Hin|Hin].
  - destruct (H1 qy Hin Hrej) as [e He]. exists e. cbn. now rewrite He.
  - destruct (H2 qy Hin Hrej) as [e He]. cbn. rewrite He.
    destruct (settled p1); eauto.
Qed.

Lemma strict_all3 {A} (p1 p2 p3 : Promise A) :
  strict p1 -> strict p2 -> strict p3 -> strict (all3 (p1, p2, p3)).
Proof. intros. unfold all3. auto using strict_all2. Qed.

Lemma strict_all4 {A B C F} (p1 : Promise A) (p2 : Promise B)
    (p3 : Promise C) (p4 : Promise F) :
  strict p1 -> strict p2 -> strict p3 -> strict p4 ->
  strict (all4 p1 p2 p3 p4).
Proof. intros. unfold all4. auto using strict_all2. Qed.

Lemma strict_searchPromises type r page limit :
  strict (all3 (searchPromises type r page limit)).
Proof.
  unfold searchPromises. apply strict_all3;
    match goal with |- strict (if ?b then _ else _) => destruct b end;
    auto using strict_resolve, strict_then, strict_findLean.
Qed.

Lemma strict_countPromises type r :
  strict (all3 (countPromises type r)).
Proof.
  unfold countPromises. apply strict_all3;
    match goal with |- strict (if ?b then _ else _) => destruct b end;
    auto using strict_resolve, strict_countDocuments.
Qed.

Lemma strict_suggestionQueries r : strict (suggestionQueries r).
Proof.
  unfold suggestionQueries.
  apply strict_all4; auto using strict_findLean, strict_aggregate.
Qed.

(** ** The two handlers, case by case *)

(** The promise [unifiedSearch] awaits. *)
Lemma unifiedSearch_short (req : Request) :
  (length (trim (orString (q req) [])) < 2)%nat ->
  unifiedSearch req =
  {| response := validationFailed; queries := []; console := [] |}.
Proof.
  intros Hlen. unfold unifiedSearch.
  destruct (parsePaginationParams (page req) (limit req)) as [pg lim].
  apply Nat.ltb_lt in Hlen. now rewrite Hlen.
Qed.

Lemma autocomplete_short (req : Request) :
  (length (trim (orString (q req) [])) < 2)%nat ->
  autocomplete req =
  {| response := validationFailed; queries := []; console := [] |}.
Proof.
  intros Hlen. unfold autocomplete.
  apply Nat.ltb_lt in Hlen. now rewrite Hlen.
Qed.

Lemma unifiedSearch_long (req : Request) (pg lim : Z) :
  parsePaginationParams (page req) (limit req) = (pg, lim) ->
  (2 <= length (trim (orString (q req) [])))%nat ->
  unifiedSearch req =
  let query := trim (orString (q req) []) in
  let type := orString (type req) (lit "all") in
  match newRegExp query "i" with
  | None => searchError (SyntaxError query) []
  | Some searchRegex =>
      let awaited :=
        all2 (all3 (searchPromises type searchRegex pg lim))
             (all3 (countPromises type searchRegex)) in
      match settled awaited with
      | Fulfilled ((homestays, guides, products), (hc, gc, pc)) =>
          {| response :=
               sendSuccess
                 (SearchPayload
                    {| homestays := homestays; guides := guides;
                       products := products;
                       total := {| total_homestays := hc; total_guides := gc;
                                   total_products := pc;
                                   overall := hc + gc + pc |} |}
                    query
                    (getPaginationMeta pg lim (hc + gc + pc)));
             queries := issued awaited;
             console := [] |}
      | Rejected e => searchError e (issued awaited)
      end
  end.
Proof.
  intros Hparse Hlen. unfold unifiedSearch. rewrite Hparse.
  apply Nat.ltb_ge in Hlen. rewrite Hlen. reflexivity.
Qed.

Lemma autocomplete_long (req : Request) :
  (2 <= length (trim (orString (q req) [])))%nat ->
  autocomplete req =
  let query := trim (orString (q req) []) in
  match newRegExp query "i" with
  | None => autocompleteError (SyntaxError query) []
  | Some searchRegex =>
      let awaited := suggestionQueries searchRegex in
      match settled awaited with
      | Fulfilled (homestays, guides, products, locations) =>
          {| response :=
               sendSuccess
                 (SuggestionsPayload
                    (take 10 (collectSuggestions locations homestays guides
                                products)));
             queries := issued awaited;
             console := [] |}
      | Rejected e => autocompleteError e (issued awaited)
      end
  end.
Proof.
  intros Hlen. unfold autocomplete.
  apply Nat.ltb_ge in Hlen. rewrite Hlen. reflexivity.
Qed.

(** A successful search, read backwards. *)
Lemma unifiedSearch_success (req : Request) res qy meta :
  response (unifiedSearch req) = sendSuccess (SearchPayload res qy meta) ->
  exists pg lim r hs gs ps hc gc pc,
    parsePaginationParams (page req) (limit req) = (pg, lim) /\
    (2 <= length (trim (orString (q req) [])))%nat /\
    newRegExp (trim (orString (q req) [])) "i" = Some r /\
    settled (all2 (all3 (searchPromises (orString (type req) (lit "all"))
                           r pg lim))
                  (all3 (countPromises (orString (type req) (lit "all")) r)))
    = Fulfilled ((hs, gs, ps), (hc, gc, pc)) /\
    res = {| homestays := hs; guides := gs; products := ps;
             total := {| total_homestays := hc; total_guides := gc;
                         total_products := pc;
                         overall := hc + gc + pc |} |} /\
    qy = trim (orString (q req) []) /\
    meta = getPaginationMeta pg lim (hc + gc + pc).
Proof.
  intros Hresp.
  destruct (parsePaginationParams (page req) (limit req)) as [pg lim] eqn:Hp.
  destruct (Nat.lt_ge_cases (length (trim (orString (q req) []))) 2)
    as [Hlen|Hlen].
  - rewrite (unifiedSearch_short req Hlen) in Hresp. discriminate.
  - rewrite (unifiedSearch_long req pg lim Hp Hlen) in Hresp. cbv zeta in Hresp.
    destruct (newRegExp _ "i") as [r|] eqn:Hr; [|discriminate].
    destruct (settled _) as [[[[hs gs] ps] [[hc gc] pc]]|e] eqn:Hs;
      [|discriminate].
    cbn in Hresp. injection Hresp as <- <- <-.
    exists pg, lim, r, hs, gs, ps, hc, gc, pc. auto 10.
Qed.

(** The queries of a search are those of the awaited promise, when there are
    any. *)
Lemma unifiedSearch_queries (req : Request) (qy : Query) :
  In qy (queries (unifiedSearch req)) ->
  exists pg lim r,
    parsePaginationParams (page req) (limit req) = (pg, lim) /\
    (2 <= length (trim (orString (q req) [])))%nat /\
    newRegExp (trim (orString (q req) [])) "i" = Some r /\
    queries (unifiedSearch req) =
    issued (all2 (all3 (searchPromises (orString (type req) (lit "all"))
                          r pg lim))
                 (all3 (countPromises (orString (type req) (lit "all")) r))).
Proof.
  intros Hin.
  destruct (parsePaginationParams (page req) (limit req)) as [pg lim] eqn:Hp.
  destruct (Nat.lt_ge_cases (length (trim (orString (q req) []))) 2)
    as [Hlen|Hlen].
  - rewrite (unifiedSearch_short req Hlen) in Hin. destruct Hin.
  - exists pg, lim.
    rewrite (unifiedSearch_long req pg lim Hp Hlen) in Hin |- *.
    cbv zeta in Hin |- *.
    destruct (newRegExp _ "i") as [r|] eqn:Hr; [|destruct Hin].
    exists r. repeat split; try assumption.
    destruct (settled _) as [[[[hs gs] ps] [[hc gc] pc]]|e]; reflexivity.
Qed.

Lemma autocomplete_queries (req : Request) (qy : Query) :
  In qy (queries (autocomplete req)) ->
  exists r,
    (2 <= length (trim (orString (q req) [])))%nat /\
    newRegExp (trim (orString (q req) [])) "i" = Some r /\
    queries (autocomplete req) = issued (suggestionQueries r).
Proof.
  intros Hin.
  destruct (Nat.lt_ge_cases (length (trim (orString (q req) []))) 2)
    as [Hlen|Hlen].
  - rewrite (autocomplete_short req Hlen) in Hin. destruct Hin.
  - rewrite (autocomplete_long req Hlen) in Hin |- *. cbv zeta in Hin |- *.
    destruct (newRegExp _ "i") as [r|] eqn:Hr; [|destruct Hin].
    exists r. repeat split; try assumption.
    destruct (settled _) as [[[[hs gs] ps] ls]|e]; reflexivity.
Qed.

(** ** The claims *)

(** C4.  In the envelope of every successful search, whatever the type
    filter, page and limit, the overall count is the sum of the three
    per-type counts. *)
Theorem unifiedSearch_overall_is_sum (req : Request) res qy meta :
  response (unifiedSearch req) = sendSuccess (SearchPayload res qy meta) ->
  overall (total res) =
  total_homestays (total res) + total_guides (total res) +
  total_products (total res).
Proof.
  intros Hresp.
  destruct (unifiedSearch_success req res qy meta Hresp)
    as (pg & lim & r & hs & gs & ps & hc & gc & pc & _ & _ & _ & _ & -> & _).
  reflexivity.
Qed.

(** C6.  A term shorter than two code units, trimmed or as received, is
    answered by both endpoints with the validation error of status 400 on
    field [q], whatever the other parameters are, and no query is sent. *)
Theorem short_term_rejected (req : Request) :
  (length (trim (orString (q req) [])) < 2)%nat \/
  (length (orString (q req) []) < 2)%nat ->
  let rejected :=
    {| response :=
         sendError "Validation failed" 400
           (Some [ {| field := "q";
                      message :=
                        "Search query must be at least 2 characters" |} ]);
       queries := [];
       console := [] |} in
  unifiedSearch req = rejected /\ autocomplete req = rejected.
Proof.
  intros Hlen rejected.
  assert (Hshort : (length (trim (orString (q req) [])) < 2)%nat).
  { destruct Hlen as [Hlen|Hlen]; [assumption|].
    pose proof (trim_length (orString (q req) [])). lia. }
  split.
  - now rewrite unifiedSearch_short.
  - now rewrite autocomplete_short.
Qed.

(** C8.  When a query sent by a search or by an autocomplete is rejected,
    the response is the generic error of status 500 and nothing else: no
    payload, no detail of the rejection.  The handlers are total functions
    to [Outcome], so nothing escapes them. *)
Theorem rejected_query_fails_request (req : Request) (qy : Query) :
  rejects D qy ->
  (In qy (queries (unifiedSearch req)) ->
   response (unifiedSearch req) =
   sendError "Failed to perform search" 500 None) /\
  (In qy (queries (autocomplete req)) ->
   response (autocomplete req) =
   sendError "Failed to get suggestions" 500 None).
Proof.
  intros Hrej. split; intros Hin.
  - destruct (unifiedSearch_queries req qy Hin)
      as (pg & lim & r & Hp & Hlen & Hr & Hq).
    rewrite Hq in Hin.
    rewrite (unifiedSearch_long req pg lim Hp Hlen). cbv zeta. rewrite Hr.
    destruct (strict_all2 _ _ (strict_searchPromises _ r pg lim)
                (strict_countPromises _ r) qy Hin Hrej) as [e ->].
    reflexivity.
  - destruct (autocomplete_queries req qy Hin) as (r & Hlen & Hr & Hq).
    rewrite Hq in Hin.
    rewrite (autocomplete_long req Hlen). cbv zeta. rewrite Hr.
    destruct (strict_suggestionQueries r qy Hin Hrej) as [e ->].
    reflexivity.
Qed.

(** The type filter, evaluated. *)
Lemma isType_all (t : string) : isType (lit "all") t = true.
Proof. unfold isType. now rewrite bool_decide_eq_true_2. Qed.

Lemma isType_homestays :
  isType (lit "homestays") "homestays" = true /\
  isType (lit "homestays") "guides" = false /\
  isType (lit "homestays") "products" = false.
Proof. vm_compute. auto. Qed.

Lemma isType_guides :
  isType (lit "guides") "homestays" = false /\
  isType (lit "guides") "guides" = true /\
  isType (lit "guides") "products" = false.
Proof. vm_compute. auto. Qed.

Lemma isType_products :
  isType (lit "products") "homestays" = false /\
  isType (lit "products") "guides" = false /\
  isType (lit "products") "products" = true.
Proof. vm_compute. auto. Qed.

Lemma orString_lit (o : option jsstring) (d : string) (c : Ascii.ascii)
    (s' : string) :
  o = Some (lit (String c s')) -> orString o (lit d) = lit (String c s').
Proof. intros ->. reflexivity. Qed.

Ltac evalType Hty H :=
  rewrite (orString_lit _ _ _ _ Hty) in H;
  unfold searchPromises, countPromises in H;
  first [ rewrite (proj1 isType_homestays), (proj1 (proj2 isType_homestays)),
            (proj2 (proj2 isType_homestays)) in H
        | rewrite (proj1 isType_guides), (proj1 (proj2 isType_guides)),
            (proj2 (proj2 isType_guides)) in H
        | rewrite (proj1 isType_products), (proj1 (proj2 isType_products)),
            (proj2 (proj2 isType_products)) in H ].

(** C5.  With the type filter set to one of [homestays], [guides] or
    [products], every query sent is on the selected collection, and in the
    envelope of a successful search the two other lists are empty, their
    counts are [0], and the overall count is the count of the selected
    type. *)
Theorem single_type_search (req : Request) :
  (type req = Some (lit "homestays") ->
   (forall qy, In qy (queries (unifiedSearch req)) ->
               collectionOf qy = HomestayModel) /\
   (forall res query meta,
       response (unifiedSearch req) = sendSuccess (SearchPayload res query meta) ->
       guides res = [] /\ products res = [] /\
       total_guides (total res) = 0 /\ total_products (total res) = 0 /\
       overall (total res) = total_homestays (total res))) /\
  (type req = Some (lit "guides") ->
   (forall qy, In qy (queries (unifiedSearch req)) ->
               collectionOf qy = GuideModel) /\
   (forall res query meta,
       response (unifiedSearch req) = sendSuccess (SearchPayload res query meta) ->
       homestays res = [] /\ products res = [] /\
       total_homestays (total res) = 0 /\ total_products (total res) = 0 /\
       overall (total res) = total_guides (total res))) /\
  (type req = Some (lit "products") ->
   (forall qy, In qy (queries (unifiedSearch req)) ->
               collectionOf qy = ProductModel) /\
   (forall res query meta,
       response (unifiedSearch req) = sendSuccess (SearchPayload res query meta) ->
       homestays res = [] /\ guides res = [] /\
       total_homestays (total res) = 0 /\ total_guides (total res) = 0 /\
       overall (total res) = total_products (total res))).
Proof.
  split; [|split]; intros Hty;
    (split; [intros qy Hin | intros res query meta Hresp]).
  1, 3, 5:
    destruct (unifiedSearch_queries req qy Hin)
      as (pg & lim & r & _ & _ & _ & Hq);
    rewrite Hq in Hin; evalType Hty Hin;
    cbn [issued all2 all3 then_ findLean countDocuments_ resolve app] in Hin;
    destruct Hin as [<-|[<-|[]]]; reflexivity.
  all: destruct (unifiedSearch_success req res query meta Hresp)
         as (pg & lim & r & hs & gs & ps & hc & gc & pc
             & _ & _ & _ & Hs & -> & _);
       evalType Hty Hs;
       apply all2_fulfilled in Hs as [Hs Hc];
       apply all3_fulfilled in Hs as (Hh & Hg & Hp);
       apply all3_fulfilled in Hc as (Hhc & Hgc & Hpc);
       cbn [settled resolve] in Hh, Hg, Hp, Hhc, Hgc, Hpc;
       cbn [homestays guides products total total_homestays total_guides
            total_products overall];
       repeat match goal with
              | H : Fulfilled _ = Fulfilled _ |- _ => injection H as <-
              end;
       repeat split; lia.
Qed.





(** C3.  When the four queries of an autocomplete are fulfilled, the
    response carries the first ten entries of the location suggestions
    followed by the homestay, guide and product suggestions.  A driver
    honouring the limit returns at most three of each; when it returns three
    of each, exactly ten suggestions are sent, the last being the first
    product, and the two other products are dropped.  Conversely, every
    list of suggestions sent is built this way. *)
Theorem autocomplete_suggestions (req : Request) :
  (forall (r : RegExp) (hs gs ps : list Doc) (ls : list GroupRow),
      (2 <= length (trim (orString (q req) [])))%nat ->
      newRegExp (trim (orString (q req) [])) "i" = Some r ->
      find HomestayModel [Is "status" (lit "active"); Matches "title" r]
           ["title"] None 3 = Fulfilled hs ->
      find GuideModel [Matches "name" r] ["name"] None 3 = Fulfilled gs ->
      find ProductModel [Matches "title" r] ["title"] None 3 = Fulfilled ps ->
      aggregate HomestayModel
                [Match_ [Matches "location.district" r];
                 GroupCount "location.district"; Limit 3] = Fulfilled ls ->
      let suggestions :=
        take 10 (map locationSuggestion ls ++
                 map (docSuggestion "title" "homestay") hs ++
                 map (docSuggestion "name" "guide") gs ++
                 map (docSuggestion "title" "product") ps) in
      response (autocomplete req) =
      sendSuccess (SuggestionsPayload suggestions) /\
      (length suggestions <= 10)%nat /\
      (honoursLimit D ->
       (length ls <= 3)%nat /\ (length hs <= 3)%nat /\
       (length gs <= 3)%nat /\ (length ps <= 3)%nat) /\
      (length ls = 3%nat -> length hs = 3%nat ->
       length gs = 3%nat -> length ps = 3%nat ->
       length suggestions = 10%nat /\
       suggestions =
       map locationSuggestion ls ++
       map (docSuggestion "title" "homestay") hs ++
       map (docSuggestion "name" "guide") gs ++
       map (docSuggestion "title" "product") (take 1 ps))) /\
  (forall suggestions,
      response (autocomplete req) =
      sendSuccess (SuggestionsPayload suggestions) ->
      exists (r : RegExp) (hs gs ps : list Doc) (ls : list GroupRow),
        newRegExp (trim (orString (q req) [])) "i" = Some r /\
        find HomestayModel [Is "status" (lit "active"); Matches "title" r]
             ["title"] None 3 = Fulfilled hs /\
        find GuideModel [Matches "name" r] ["name"] None 3 = Fulfilled gs /\
        find ProductModel [Matches "title" r] ["title"] None 3
        = Fulfilled ps /\
        aggregate HomestayModel
                  [Match_ [Matches "location.district" r];
                   GroupCount "location.district"; Limit 3] = Fulfilled ls /\
        suggestions =
        take 10 (map locationSuggestion ls ++
                 map (docSuggestion "title" "homestay") hs ++
                 map (docSuggestion "name" "guide") gs ++
                 map (docSuggestion "title" "product") ps)).
Proof.
  split.
  - intros r hs gs ps ls Hlen Hr Hh Hg Hp Hl suggestions.
    split; [|split; [|split]].
    + rewrite (autocomplete_long req Hlen). cbv zeta. rewrite Hr.
      assert (Hs : settled (suggestionQueries r) = Fulfilled (hs, gs, ps, ls)).
      { unfold suggestionQueries. apply all4_fulfilled. cbn. auto. }
      rewrite Hs. reflexivity.
    + unfold suggestions. rewrite length_take. lia.
    + intros [Hfind Hagg].
      specialize (Hagg HomestayModel
                    [Match_ [Matches "location.district" r];
                     GroupCount "location.district"] 3 ls).
      cbn [app] in Hagg. specialize (Hagg ltac:(lia) Hl).
      pose proof (Hfind _ _ _ _ 3 _ ltac:(lia) Hh).
      pose proof (Hfind _ _ _ _ 3 _ ltac:(lia) Hg).
      pose proof (Hfind _ _ _ _ 3 _ ltac:(lia) Hp).
      lia.
    + intros Hls Hhs Hgs Hps. split.
      * unfold suggestions.
        rewrite length_take, !length_app, !length_map. lia.
      * unfold suggestions.
        destruct ls as [|l1 [|l2 [|l3 [|]]]]; try discriminate.
        destruct hs as [|h1 [|h2 [|h3 [|]]]]; try discriminate.
        destruct gs as [|g1 [|g2 [|g3 [|]]]]; try discriminate.
        destruct ps as [|p1 [|p2 [|p3 [|]]]]; try discriminate.
        reflexivity.
  - intros suggestions Hresp.
    destruct (Nat.lt_ge_cases (length (trim (orString (q req) []))) 2)
      as [Hlen|Hlen].
    + rewrite (autocomplete_short req Hlen) in Hresp. discriminate.
    + rewrite (autocomplete_long req Hlen) in Hresp. cbv zeta in Hresp.
      destruct (newRegExp _ "i") as [r|] eqn:Hr; [|discriminate].
      destruct (settled _) as [[[[hs gs] ps] ls]|e] eqn:Hs; [|discriminate].
      unfold suggestionQueries in Hs.
      apply all4_fulfilled in Hs as (Hh & Hg & Hp & Hl).
      cbn in Hresp. injection Hresp as <-.
      exists r, hs, gs, ps, ls. auto 10.
Qed.

Lemma queryRegexes_search type r pg lim qy r' :
  In qy (issued (all2 (all3 (searchPromises type r pg lim))
                      (all3 (countPromises type r)))) ->
  In r' (queryRegexes qy) -> r' = r.
Proof.
  unfold searchPromises, countPromises.
  destruct (isType type "homestays"), (isType type "guides"),
    (isType type "products");
    cbn [issued all2 all3 then_ findLean countDocuments_ resolve app In];
    intros Hin Hr';
    repeat match goal with
           | H : _ \/ _ |- _ => destruct H
           | H : False |- _ => destruct H
           end;
    subst qy; cbn in Hr'; intuition congruence.
Qed.

Lemma queryRegexes_suggestions r qy r' :
  In qy (issued (suggestionQueries r)) ->
  In r' (queryRegexes qy) -> r' = r.
Proof.
  unfold suggestionQueries.
  cbn [issued all4 all2 findLean aggregate_ app In].
  intros Hin Hr'.
  repeat match goal with
         | H : _ \/ _ |- _ => destruct H
         | H : False |- _ => destruct H
         end;
    subst qy; cbn in Hr'; intuition congruence.
Qed.

(** C10.  Both endpoints trim the raw term first.  Let [t] be the raw term
    without the white space at its start and at its end ([trim] computes
    it).  If [t] is shorter than two code units, as for a raw term of white
    space only, both endpoints answer with the validation error; the term
    echoed by a successful search is [t], not the raw input; every regular
    expression sent to the database is the one compiled from [t]; and two
    requests whose raw terms have the same [t] have the same outcome. *)
Theorem term_is_trimmed (req : Request) :
  isTrimOf (trim (orString (q req) [])) (orString (q req) []) /\
  (forall t : jsstring,
      isTrimOf t (orString (q req) []) ->
      ((length t < 2)%nat ->
       response (unifiedSearch req) = validationFailed /\
       response (autocomplete req) = validationFailed) /\
      (forall res query meta,
          response (unifiedSearch req) =
          sendSuccess (SearchPayload res query meta) ->
          query = t /\ (2 <= length t)%nat) /\
      (forall qy r,
          In qy (queries (unifiedSearch req)) \/
          In qy (queries (autocomplete req)) ->
          In r (queryRegexes qy) ->
          newRegExp t "i" = Some r) /\
      (forall req',
          isTrimOf t (orString (q req') []) ->
          type req' = type req -> page req' = page req ->
          limit req' = limit req ->
          unifiedSearch req' = unifiedSearch req /\
          autocomplete req' = autocomplete req)) /\
  (forallb isWhiteSpace (orString (q req) []) = true ->
   response (unifiedSearch req) = validationFailed /\
   response (autocomplete req) = validationFailed).
Proof.
  assert (Hshort : (length (trim (orString (q req) [])) < 2)%nat ->
                   response (unifiedSearch req) = validationFailed /\
                   response (autocomplete req) = validationFailed).
  { intros Hlen.
    now rewrite (unifiedSearch_short req Hlen), (autocomplete_short req Hlen). }
  split; [apply trim_isTrimOf|]. split.
  - intros t Ht. apply isTrimOf_unique in Ht as ->.
    split; [exact Hshort|]. split; [|split].
    + intros res query meta Hresp.
      destruct (unifiedSearch_success req res query meta Hresp)
        as (pg & lim & r & hs & gs & ps & hc & gc & pc
            & _ & Hlen & _ & _ & _ & -> & _).
      split; [reflexivity | assumption].
    + intros qy r [Hin|Hin] Hr.
      * destruct (unifiedSearch_queries req qy Hin)
          as (pg & lim & r0 & _ & _ & Hr0 & Hq).
        rewrite Hq in Hin.
        now rewrite (queryRegexes_search _ _ _ _ _ _ Hin Hr).
      * destruct (autocomplete_queries req qy Hin) as (r0 & _ & Hr0 & Hq).
        rewrite Hq in Hin.
        now rewrite (queryRegexes_suggestions _ _ _ Hin Hr).
    + intros req' Ht' Hty Hpg Hlim. apply isTrimOf_unique in Ht'.
      unfold unifiedSearch, autocomplete.
      now rewrite <- Ht', Hty, Hpg, Hlim.
  - intros Hws. apply Hshort. rewrite (trim_whitespace _ Hws). cbn. lia.
Qed.

End Facts.

End SearchProofs.

(** * The reference collaborators at work *)

Module ReferenceProofs.
Import Search Reference SearchSamples SearchProofs.

Lemma memoryDriver_honoursLimit (s : Store) : honoursLimit (memoryDriver s).
Proof.
  split.
  - intros m f sel sk lim docs Hpos. cbn.
    destruct (faulty s _); [discriminate|].
    destruct (default 0 sk <? 0); [discriminate|].
    destruct (Z.eqb_spec lim 0) as [->|_]; [lia|].
    intros [= <-]. rewrite length_map, length_take. lia.
  - intros m stages n rows Hpos. cbn.
    destruct (faulty s _); [discriminate|].
    destruct stages as [|s1 [|s2 [|s3 stages]]]; cbn.
    + discriminate.
    + destruct s1; discriminate.
    + destruct s1; try discriminate. destruct s2; try discriminate.
      destruct (n <=? 0); [discriminate|].
      intros [= <-]. rewrite length_take. lia.
    + destruct s1; try discriminate. destruct s2; try discriminate.
      destruct s3; try discriminate.
      destruct stages; discriminate.
Qed.

Lemma unifiedSearch_overall_is_sum_witness :
  exists res query meta,
    response (runSearch (sampleStore noFaults) ranchi) =
    sendSuccess (SearchPayload res query meta) /\
    overall (total res) =
    total_homestays (total res) + total_guides (total res) +
    total_products (total res).
Proof.
  eexists _, _, _.
  assert (H : response (runSearch (sampleStore noFaults) ranchi) =
              sendSuccess (SearchPayload _ _ _)) by (vm_compute; reflexivity).
  split; [exact H|].
  exact (unifiedSearch_overall_is_sum ranchi _ _ _ H).
Defined.

Lemma short_term_rejected_witness :
  response (runSearch (sampleStore noFaults) oneLetter) =
  sendError "Validation failed" 400
    (Some [ {| field := "q";
               message := "Search query must be at least 2 characters" |} ]) /\
  queries (runAutocomplete (sampleStore noFaults) oneLetter) = [].
Proof.
  assert (Hlen : (length (trim (orString (q oneLetter) [])) < 2)%nat \/
                 (length (orString (q oneLetter) []) < 2)%nat)
    by (left; vm_compute; lia).
  destruct (@short_term_rejected literalEngine specUtils
              (memoryDriver (sampleStore noFaults)) oneLetter Hlen)
    as [Hs Ha].
  unfold runSearch, runAutocomplete. rewrite Hs, Ha. split; reflexivity.
Defined.

Lemma rejected_query_fails_request_witness :
  response (runSearch (sampleStore countsFail) ranchi) =
  sendError "Failed to perform search" 500 None /\
  response (runAutocomplete (sampleStore aggregateFails) ranchi) =
  sendError "Failed to get suggestions" 500 None.
Proof.
  split.
  - apply (proj1 (@rejected_query_fails_request literalEngine specUtils
                    (memoryDriver (sampleStore countsFail)) ranchi
                    guideCount
                    (ex_intro _ unavailable eq_refl))).
    vm_compute. tauto.
  - apply (proj2 (@rejected_query_fails_request literalEngine specUtils
                    (memoryDriver (sampleStore aggregateFails)) ranchi
                    districtAggregate
                    (ex_intro _ unavailable eq_refl))).
    vm_compute. tauto.
Defined.

Lemma single_type_search_witness :
  exists res query meta,
    response (runSearch (sampleStore noFaults) ranchiGuides) =
    sendSuccess (SearchPayload res query meta) /\
    homestays res = [] /\ products res = [] /\
    total_homestays (total res) = 0 /\ total_products (total res) = 0 /\
    overall (total res) = total_guides (total res).
Proof.
  eexists _, _, _.
  assert (H : response (runSearch (sampleStore noFaults) ranchiGuides) =
              sendSuccess (SearchPayload _ _ _)) by (vm_compute; reflexivity).
  split; [exact H|].
  exact (proj2 (proj1 (proj2 (single_type_search ranchiGuides)) eq_refl)
           _ _ _ H).
Defined.


Lemma autocomplete_suggestions_witness :
  exists suggestions,
    response (runAutocomplete (sampleStore noFaults) ranchi) =
    sendSuccess (SuggestionsPayload suggestions) /\
    length suggestions = 10%nat /\
    map category suggestions =
    ["location"; "location"; "location"; "homestay"; "homestay"; "homestay";
     "guide"; "guide"; "guide"; "product"].
Proof.
  edestruct (proj1 (@autocomplete_suggestions literalEngine specUtils
                      (memoryDriver (sampleStore noFaults)) ranchi)
               ranchiPattern)
    as (Hresp & _ & _ & Hfull).
  - vm_compute. lia.
  - reflexivity.
  - vm_compute. reflexivity.
  - vm_compute. reflexivity.
  - vm_compute. reflexivity.
  - vm_compute. reflexivity.
  - eexists. split; [exact Hresp|]. split.
    + apply Hfull; reflexivity.
    + reflexivity.
Defined.

Lemma term_is_trimmed_witness :
  (exists res query meta,
      response (runSearch (sampleStore noFaults) ranchiPage2) =
      sendSuccess (SearchPayload res query meta) /\
      q ranchiPage2 = Some (lit "  Ranchi ") /\ query = lit "Ranchi") /\
  response (runSearch (sampleStore noFaults) trailingBlanks) =
  validationFailed /\
  response (runAutocomplete (sampleStore noFaults) blanks) = validationFailed.
Proof.
  split; [|split].
  - assert (Ht : isTrimOf (lit "Ranchi") (orString (q ranchiPage2) [])).
    { split; [|split].
      - exists (lit "  "), (lit " "). repeat split; reflexivity.
      - intros c [= <-]. reflexivity.
      - intros c Hc. vm_compute in Hc. injection Hc as <-. reflexivity. }
    eexists _, _, _.
    assert (H : response (runSearch (sampleStore noFaults) ranchiPage2) =
                sendSuccess (SearchPayload _ _ _)) by (vm_compute; reflexivity).
    split; [exact H|]. split; [reflexivity|].
    exact (proj1 (proj1 (proj2 (proj1 (proj2
             (@term_is_trimmed literalEngine specUtils
                (memoryDriver (sampleStore noFaults)) ranchiPage2))
             (lit "Ranchi") Ht)) _ _ _ H)).
  - assert (Ht : isTrimOf (lit "r") (orString (q trailingBlanks) [])).
    { split; [|split].
      - exists [], (lit "  "). repeat split; reflexivity.
      - intros c [= <-]. reflexivity.
      - intros c [= <-]. reflexivity. }
    apply (proj1 (proj1 (proj2
             (@term_is_trimmed literalEngine specUtils
                (memoryDriver (sampleStore noFaults)) trailingBlanks))
             (lit "r") Ht)).
    vm_compute. lia.
  - apply (proj2 (proj2 (@term_is_trimmed literalEngine specUtils
                           (memoryDriver (sampleStore noFaults)) blanks))).
    reflexivity.
Defined.

End ReferenceProofs.

(** * Further properties of the booking hook *)

Module BookingExtras.
Import JsNumber Booking BookingSamples MoreSamples NumberProofs BookingProofs.

Lemma deriveNights_idempotent (b : IBooking) :
  deriveNights (deriveNights b) = deriveNights b.
Proof.
  destruct (truthy (nights b)) eqn:Hn.
  - now rewrite !(deriveNights_set b Hn).
  - unfold deriveNights at 2 3. rewrite Hn.
    destruct (checkIn b) as [ci|] eqn:Hci, (checkOut b) as [co|] eqn:Hco;
      cbn [negb].
    + unfold deriveNights. cbn. rewrite Hci, Hco.
      destruct (ceilDays _ =? 0); reflexivity.
    + unfold deriveNights. now rewrite Hci, Hco.
    + unfold deriveNights. now rewrite Hci.
    + unfold deriveNights. now rewrite Hci.
Qed.

Lemma deriveTotal_idempotent (b : IBooking) :
  deriveTotal (deriveTotal b) = deriveTotal b.
Proof.
  destruct (guests b) as [g|] eqn:Hg.
  - destruct (truthy (total g)) eqn:Ht.
    + now rewrite !(deriveTotal_set b g Hg Ht).
    + unfold deriveTotal at 2 3. rewrite Hg, Ht. cbn [negb].
      unfold deriveTotal. cbn. rewrite ?Hg.
      destruct (jsAdd _ _ =? 0); reflexivity.
  - unfold deriveTotal. rewrite Hg. now rewrite Hg.
Qed.

Ltac hookCases b :=
  let g := fresh "g" in
  destruct (guests b) as [g|] eqn:Hg;
  destruct (checkIn b) as [?|] eqn:Hci;
  destruct (checkOut b) as [?|] eqn:Hco;
  destruct (truthy (nights b)) eqn:Hn;
  try (destruct (truthy (total g)) eqn:Ht);
  cbn; rewrite ?Hg, ?Hci, ?Hco, ?Hn; cbn;
  rewrite ?Hg, ?Hci, ?Hco, ?Hn; cbn.

Lemma derive_commute (b : IBooking) :
  deriveNights (deriveTotal b) = deriveTotal (deriveNights b).
Proof.
  unfold deriveNights, deriveTotal. hookCases b; try rewrite Ht; reflexivity.
Qed.

(** X1.  Running the hook a second time changes nothing: a document that
    has been through one save keeps its derived fields on the next. *)
Theorem preSave_idempotent (b : IBooking) : preSave (preSave b) = preSave b.
Proof.
  unfold preSave.
  rewrite derive_commute, deriveTotal_idempotent, deriveNights_idempotent.
  reflexivity.
Qed.

(** X2.  The hook writes [nights] and [guests.total] and nothing else: the
    dates, the guest breakdown, the contact details, the pricing and both
    statuses leave it as they entered. *)
Theorem preSave_frame (b : IBooking) :
  bookingNumber (preSave b) = bookingNumber b /\
  listingType (preSave b) = listingType b /\
  listingId (preSave b) = listingId b /\
  listingTitle (preSave b) = listingTitle b /\
  checkIn (preSave b) = checkIn b /\
  checkOut (preSave b) = checkOut b /\
  adults <$> guests (preSave b) = adults <$> guests b /\
  children <$> guests (preSave b) = children <$> guests b /\
  guestDetails (preSave b) = guestDetails b /\
  specialRequests (preSave b) = specialRequests b /\
  pricing (preSave b) = pricing b /\
  status (preSave b) = status b /\
  paymentStatus (preSave b) = paymentStatus b /\
  cancellationReason (preSave b) = cancellationReason b /\
  cancelledAt (preSave b) = cancelledAt b.
Proof.
  unfold preSave, deriveTotal, deriveNights.
  hookCases b; try rewrite Ht; cbn; rewrite ?Hg, ?Hci, ?Hco;
    repeat split; reflexivity.
Qed.

(** X3.  Without a check-in or without a check-out date the hook leaves
    [nights] as it is, unset included; without [guests] it creates none. *)
Theorem preSave_missing_inputs (b : IBooking) :
  (checkIn b = None \/ checkOut b = None -> nights (preSave b) = nights b) /\
  (guests b = None -> guests (preSave b) = None).
Proof.
  split.
  - intros Hmiss. unfold preSave. rewrite deriveTotal_nights.
    unfold deriveNights.
    destruct Hmiss as [-> | ->]; [reflexivity|].
    destruct (checkIn b); reflexivity.
  - intros Hg. unfold preSave, deriveTotal.
    rewrite deriveNights_guests, Hg. now rewrite deriveNights_guests.
Qed.

Lemma preSave_missing_inputs_witness :
  nights (preSave (openEnded None)) = None /\
  nights (preSave (openEnded (Some 0))) = Some 0.
Proof.
  split.
  - exact (proj1 (preSave_missing_inputs (openEnded None))
             (or_intror eq_refl)).
  - exact (proj1 (preSave_missing_inputs (openEnded (Some 0)))
             (or_intror eq_refl)).
Defined.

Lemma falsy_cases (n : option Z) :
  n = None \/ n = Some 0 -> truthy n = false.
Proof. intros [-> | ->]; reflexivity. Qed.

Lemma preSave_falsy_nights (b : IBooking) (ci co : Date) :
  nights b = None \/ nights b = Some 0 ->
  checkIn b = Some ci -> checkOut b = Some co ->
  nights (preSave b) = Some (ceilDays (jsSub co ci)).
Proof.
  intros Hn Hci Hco. unfold preSave. rewrite deriveTotal_nights.
  now apply deriveNights_unset; [apply falsy_cases | |].
Qed.

Lemma preSave_falsy_nights_exact (b : IBooking) (ci co : Date) :
  nights b = None \/ nights b = Some 0 ->
  checkIn b = Some ci -> checkOut b = Some co ->
  Z.abs (co - ci) <= 2 ^ 53 ->
  nights (preSave b) = Some (ceilDays (co - ci)) /\
  isCeilingOf (ceilDays (co - ci)) (co - ci) 86400000.
Proof.
  intros Hn Hci Hco Hd.
  rewrite (preSave_falsy_nights b ci co Hn Hci Hco), (jsSub_exact co ci Hd).
  split; [reflexivity | now apply ceilDays_isCeiling].
Qed.

(** X4.  With both dates present and at most [2 ^ 53] milliseconds apart, a
    [nights] of [0] is recomputed exactly like an absent one.  The value
    derived is at least 1 precisely when check-out is after check-in, a
    stay of up to 24 hours counting as one night; when check-out is not
    after check-in the hook raises nothing and stores a value of zero or
    less. *)
Theorem derived_nights_sign (b : IBooking) (ci co : Date) :
  nights b = None \/ nights b = Some 0 ->
  checkIn b = Some ci -> checkOut b = Some co ->
  Z.abs (co - ci) <= 2 ^ 53 ->
  exists n,
    nights (preSave b) = Some n /\
    isCeilingOf n (co - ci) 86400000 /\
    (1 <= n <-> ci < co) /\
    (n = 1 <-> 0 < co - ci <= 86400000) /\
    (n <= 0 <-> co <= ci).
Proof.
  intros Hn Hci Hco Hd. exists (ceilDays (co - ci)).
  destruct (preSave_falsy_nights_exact b ci co Hn Hci Hco Hd) as [Hrun Hceil].
  split; [exact Hrun|]. split; [exact Hceil|].
  unfold isCeilingOf in Hceil. lia.
Qed.

Lemma derived_nights_sign_witness :
  nights (preSave (stay 1000 1001 (Some 0) None)) = Some 1 /\
  nights (preSave (stay 1001 1000 None None)) = Some 0.
Proof.
  split.
  - destruct (derived_nights_sign (stay 1000 1001 (Some 0) None) 1000 1001
                (or_intror eq_refl) eq_refl eq_refl
                ltac:(vm_compute; discriminate))
      as (n & Hn & _ & _ & H1 & _).
    rewrite Hn. f_equal. apply H1. lia.
  - destruct (derived_nights_sign (stay 1001 1000 None None) 1001 1000
                (or_introl eq_refl) eq_refl eq_refl
                ltac:(vm_compute; discriminate))
      as (n & Hn & Hceil & _).
    rewrite Hn. f_equal. unfold isCeilingOf in Hceil. lia.
Defined.

(** X5.  For stays of at most [2 ^ 53] milliseconds, derived nights grow
    with the length of the stay, and every whole day added to a stay adds
    exactly one night. *)
Theorem derived_nights_monotone_additive (b1 b2 : IBooking)
    (ci1 co1 ci2 co2 : Date) :
  nights b1 = None -> checkIn b1 = Some ci1 -> checkOut b1 = Some co1 ->
  nights b2 = None -> checkIn b2 = Some ci2 -> checkOut b2 = Some co2 ->
  Z.abs (co1 - ci1) <= 2 ^ 53 -> Z.abs (co2 - ci2) <= 2 ^ 53 ->
  exists n1 n2,
    nights (preSave b1) = Some n1 /\ nights (preSave b2) = Some n2 /\
    (co1 - ci1 <= co2 - ci2 -> n1 <= n2) /\
    (forall k, co2 - ci2 = co1 - ci1 + k * 86400000 -> n2 = n1 + k).
Proof.
  intros Hn1 Hci1 Hco1 Hn2 Hci2 Hco2 Hd1 Hd2.
  exists (ceilDays (co1 - ci1)), (ceilDays (co2 - ci2)).
  destruct (preSave_falsy_nights_exact b1 ci1 co1 (or_introl Hn1)
              Hci1 Hco1 Hd1) as [Hrun1 H1].
  destruct (preSave_falsy_nights_exact b2 ci2 co2 (or_introl Hn2)
              Hci2 Hco2 Hd2) as [Hrun2 H2].
  split; [exact Hrun1|]. split; [exact Hrun2|].
  unfold isCeilingOf in H1, H2. split.
  - intros Hle. lia.
  - intros k Hk. nia.
Qed.

Lemma derived_nights_monotone_additive_witness :
  exists n1 n2,
    nights (preSave (stay 0 90000000 None None)) = Some n1 /\
    nights (preSave (stay 500 (90000500 + 3 * 86400000) None None)) = Some n2 /\
    n1 = 2 /\ n2 = n1 + 3.
Proof.
  destruct (derived_nights_monotone_additive
              (stay 0 90000000 None None)
              (stay 500 (90000500 + 3 * 86400000) None None)
              0 90000000 500 (90000500 + 3 * 86400000)
              eq_refl eq_refl eq_refl eq_refl eq_refl eq_refl
              ltac:(vm_compute; discriminate)
              ltac:(vm_compute; discriminate))
    as (n1 & n2 & H1 & H2 & _ & Hadd).
  exists n1, n2. repeat split; try assumption.
  - assert (Hn : nights (preSave (stay 0 90000000 None None)) = Some 2)
      by (vm_compute; reflexivity).
    rewrite H1 in Hn. now injection Hn.
  - apply Hadd. lia.
Defined.



End BookingExtras.

(** * Further properties of the search controller *)

Module SearchExtras.
Import Search SearchShapes StringProofs SearchProofs.

Section MoreFacts.
Context {E : RegExpEngine} {U : ResponseUtils} {D : Driver}.

(** X7.  A term of two code units or more that is not a well-formed
    pattern is not a validation error: [new RegExp] throws inside the
    [try], and both endpoints answer with their generic error of status 500
    before any query is sent. *)
Theorem malformed_pattern_is_server_error (req : Request) :
  (2 <= length (trim (orString (q req) [])))%nat ->
  newRegExp (trim (orString (q req) [])) "i" = None ->
  response (unifiedSearch req) =
  sendError "Failed to perform search" 500 None /\
  queries (unifiedSearch req) = [] /\
  console (unifiedSearch req) =
  [("Error in unified search:", SyntaxError (trim (orString (q req) [])))] /\
  response (autocomplete req) =
  sendError "Failed to get suggestions" 500 None /\
  queries (autocomplete req) = [] /\
  console (autocomplete req) =
  [("Error in autocomplete:", SyntaxError (trim (orString (q req) [])))].
Proof.
  intros Hlen Hr.
  destruct (parsePaginationParams (page req) (limit req)) as [pg lim] eqn:Hp.
  rewrite (unifiedSearch_long req pg lim Hp Hlen), (autocomplete_long req Hlen).
  cbv zeta. rewrite Hr. repeat split; reflexivity.
Qed.

Lemma isType_other (ty : jsstring) (t : string) :
  ty <> lit "all" -> ty <> lit t -> isType ty t = false.
Proof.
  intros Hall Ht. unfold isType.
  now rewrite !bool_decide_eq_false_2.
Qed.

(** X8.  A type filter that is none of [all], [homestays], [guides] and
    [products] is not refused: the search sends no query at all and, for a
    valid term, answers with success, three empty lists and counts of
    zero. *)
Theorem unknown_type_searches_nothing (req : Request) :
  orString (type req) (lit "all") <> lit "all" ->
  orString (type req) (lit "all") <> lit "homestays" ->
  orString (type req) (lit "all") <> lit "guides" ->
  orString (type req) (lit "all") <> lit "products" ->
  queries (unifiedSearch req) = [] /\
  (forall pg lim r,
      parsePaginationParams (page req) (limit req) = (pg, lim) ->
      (2 <= length (trim (orString (q req) [])))%nat ->
      newRegExp (trim (orString (q req) [])) "i" = Some r ->
      response (unifiedSearch req) =
      sendSuccess
        (SearchPayload
           {| homestays := []; guides := []; products := [];
              total := {| total_homestays := 0; total_guides := 0;
                          total_products := 0; overall := 0 |} |}
           (trim (orString (q req) []))
           (getPaginationMeta pg lim 0))).
Proof.
  intros Hall Hh Hg Hp.
  assert (Hrun : forall pg lim r,
             parsePaginationParams (page req) (limit req) = (pg, lim) ->
             (2 <= length (trim (orString (q req) [])))%nat ->
             newRegExp (trim (orString (q req) [])) "i" = Some r ->
             unifiedSearch req =
             {| response :=
                  sendSuccess
                    (SearchPayload
                       {| homestays := []; guides := []; products := [];
                          total := {| total_homestays := 0; total_guides := 0;
                                      total_products := 0; overall := 0 |} |}
                       (trim (orString (q req) []))
                       (getPaginationMeta pg lim 0));
                queries := []; console := [] |}).
  { intros pg lim r Hparse Hlen Hr.
    rewrite (unifiedSearch_long req pg lim Hparse Hlen). cbv zeta. rewrite Hr.
    unfold searchPromises, countPromises.
    rewrite !isType_other by assumption. reflexivity. }
  split.
  - destruct (parsePaginationParams (page req) (limit req))
      as [pg lim] eqn:Hparse.
    destruct (Nat.lt_ge_cases (length (trim (orString (q req) []))) 2)
      as [Hlen|Hlen].
    + now rewrite (unifiedSearch_short req Hlen).
    + destruct (newRegExp (trim (orString (q req) [])) "i") as [r|] eqn:Hr.
      * now rewrite (Hrun pg lim r eq_refl Hlen eq_refl).
      * rewrite (unifiedSearch_long req pg lim Hparse Hlen). cbv zeta.
        now rewrite Hr.
  - intros pg lim r Hparse Hlen Hr. now rewrite (Hrun pg lim r Hparse Hlen Hr).
Qed.

(** X9.  An absent type parameter and an empty one are both read as
    [all]. *)
Theorem default_type_is_all (req req' : Request) :
  type req = None \/ type req = Some [] ->
  type req' = Some (lit "all") ->
  q req' = q req -> page req' = page req -> limit req' = limit req ->
  unifiedSearch req = unifiedSearch req'.
Proof.
  intros Hty Hty' Hq Hpg Hlim. unfold unifiedSearch.
  rewrite Hq, Hpg, Hlim, Hty'.
  destruct Hty as [-> | ->]; reflexivity.
Qed.

(** The type filter selects all three types, exactly one, or none. *)
Lemma isType_cases (ty : jsstring) :
  let h := isType ty "homestays" in
  let g := isType ty "guides" in
  let p := isType ty "products" in
  (h, g, p) = (true, true, true) \/ (h, g, p) = (true, false, false) \/
  (h, g, p) = (false, true, false) \/ (h, g, p) = (false, false, true) \/
  (h, g, p) = (false, false, false).
Proof.
  cbv zeta.
  destruct (decide (ty = lit "all")) as [-> | Hall];
    [left; now rewrite !isType_all|].
  destruct (decide (ty = lit "homestays")) as [-> | Hh];
    [right; left; vm_compute; reflexivity|].
  destruct (decide (ty = lit "guides")) as [-> | Hg];
    [right; right; left; vm_compute; reflexivity|].
  destruct (decide (ty = lit "products")) as [-> | Hp];
    [right; right; right; left; vm_compute; reflexivity|].
  right; right; right; right. now rewrite !isType_other.
Qed.

Lemma unifiedSearch_queries_cases (req : Request) :
  queries (unifiedSearch req) = [] \/
  exists pg lim r,
    parsePaginationParams (page req) (limit req) = (pg, lim) /\
    newRegExp (trim (orString (q req) [])) "i" = Some r /\
    queries (unifiedSearch req) =
    issued (all2 (all3 (searchPromises (orString (type req) (lit "all"))
                          r pg lim))
                 (all3 (countPromises (orString (type req) (lit "all")) r))).
Proof.
  destruct (queries (unifiedSearch req)) as [|qy qs] eqn:Hq; [now left|].
  right.
  destruct (unifiedSearch_queries req qy) as (pg & lim & r & Hp & _ & Hr & Hi).
  { rewrite Hq. now left. }
  exists pg, lim, r. rewrite <- Hq. auto.
Qed.

Ltac splitIn :=
  repeat match goal with
         | H : In _ (_ :: _) |- _ => destruct H as [H|H]
         | H : In _ [] |- _ => destruct H
         | H : _ \/ _ |- _ => destruct H as [H|H]
         | H : False |- _ => destruct H
         | H : Find _ _ _ _ _ = Find _ _ _ _ _ |- _ =>
             injection H as <- <- <- <- <-
         | H : CountDocuments _ _ = CountDocuments _ _ |- _ =>
             injection H as <- <-
         | H : CountDocuments _ _ = Find _ _ _ _ _ |- _ => discriminate H
         | H : Find _ _ _ _ _ = CountDocuments _ _ |- _ => discriminate H
         | H : Find _ _ _ _ _ = Aggregate _ _ |- _ => discriminate H
         | H : CountDocuments _ _ = Aggregate _ _ |- _ => discriminate H
         | H : Aggregate _ _ = Find _ _ _ _ _ |- _ => discriminate H
         | H : Aggregate _ _ = CountDocuments _ _ |- _ => discriminate H
         end.

Lemma search_queries_paired type r pg lim :
  let qs := issued (all2 (all3 (searchPromises type r pg lim))
                         (all3 (countPromises type r))) in
  (forall m f,
      In (CountDocuments m f) qs <-> exists sel sk l, In (Find m f sel sk l) qs) /\
  (forall m p, ~ In (Aggregate m p) qs) /\
  (length qs = 0 \/ length qs = 2 \/ length qs = 6)%nat.
Proof.
  cbv zeta. unfold searchPromises, countPromises.
  destruct (isType_cases type) as [Hc|[Hc|[Hc|[Hc|Hc]]]];
    cbv zeta in Hc; injection Hc as -> -> ->;
    cbn [issued all2 all3 then_ findLean countDocuments_ resolve app length].
  all: split; [|split; [|lia]].
  all: try (intros m p Hin; splitIn).
  all: intros m f; split;
    [ intros Hin; splitIn; do 3 eexists; cbn [In]; eauto 10
    | intros (sel & sk & l & Hin); splitIn; cbn [In]; auto 10 ].
Qed.

(** X10.  A search counts exactly what it fetches: the queries sent contain
    a count on a collection with a filter precisely when they contain a
    fetch on that collection with that same filter, no aggregate is ever
    sent, and the number of queries is 0, 2 or 6. *)
Theorem fetch_and_count_paired (req : Request) :
  (forall m f,
      In (CountDocuments m f) (queries (unifiedSearch req)) <->
      exists sel sk l, In (Find m f sel sk l) (queries (unifiedSearch req))) /\
  (forall m p, ~ In (Aggregate m p) (queries (unifiedSearch req))) /\
  (length (queries (unifiedSearch req)) = 0 \/
   length (queries (unifiedSearch req)) = 2 \/
   length (queries (unifiedSearch req)) = 6)%nat.
Proof.
  destruct (unifiedSearch_queries_cases req)
    as [-> | (pg & lim & r & _ & _ & ->)].
  - split; [|split].
    + intros m f. split; [intros [] | intros (sel & sk & l & [])].
    + intros m p [].
    + now left.
  - apply search_queries_paired.
Qed.

(** X11.  The counts of the envelope do not depend on the page or the
    limit: two successful searches for the same term and type report the
    same totals and echo the same term, whatever their pagination. *)
Theorem counts_ignore_pagination (req req' : Request)
    res query meta res' query' meta' :
  q req' = q req -> type req' = type req ->
  response (unifiedSearch req) = sendSuccess (SearchPayload res query meta) ->
  response (unifiedSearch req') =
  sendSuccess (SearchPayload res' query' meta') ->
  total res' = total res /\ query' = query.
Proof.
  intros Hq Hty Hresp Hresp'.
  destruct (unifiedSearch_success req res query meta Hresp)
    as (pg & lim & r & hs & gs & ps & hc & gc & pc
        & _ & _ & Hr & Hs & -> & -> & _).
  destruct (unifiedSearch_success req' res' query' meta' Hresp')
    as (pg' & lim' & r' & hs' & gs' & ps' & hc' & gc' & pc'
        & _ & _ & Hr' & Hs' & -> & -> & _).
  rewrite Hq in Hr' |- *. rewrite Hty in Hs'.
  rewrite Hr in Hr'. injection Hr' as <-.
  apply all2_fulfilled in Hs as [_ Hc].
  apply all2_fulfilled in Hs' as [_ Hc'].
  rewrite Hc in Hc'. injection Hc' as <- <- <-.
  split; reflexivity.
Qed.

(** ** Result items *)

Lemma firstImage_firstOnly (x : Doc) (img : Value) :
  firstImage x = Fulfilled img -> firstOnly (fields x !! "images") img.
Proof.
  unfold firstImage, firstOnly.
  destruct (fields x !! "images") as [[s|n|imgs]|]; try discriminate.
  - destruct s as [|c s]; cbn; now intros [= <-].
  - destruct imgs as [|first imgs]; cbn; now intros [= <-].
  - now intros [= <-].
Qed.

Lemma firstOnly_atMostOne (stored : option Value) (img : Value) :
  firstOnly stored img -> atMostOneImage img.
Proof.
  unfold firstOnly.
  destruct stored as [[[|c s]|n|[|first imgs]]|];
    try intros ->; cbn; try lia; try reflexivity; intros [].
Qed.

Lemma withTypeAndImage_builtFrom (tag : string) (d h : Doc) :
  withTypeAndImage tag d = Fulfilled h -> builtFrom tag true d h.
Proof.
  unfold withTypeAndImage.
  destruct (firstImage d) as [img|e] eqn:Himg; [|discriminate].
  intros [= <-]. unfold builtFrom; cbn. repeat split.
  - rewrite lookup_insert_ne by discriminate. apply lookup_insert_eq.
  - intros k Hk1 Hk2. now rewrite !lookup_insert_ne by congruence.
  - exists img. split; [apply lookup_insert_eq|].
    now apply firstImage_firstOnly in Himg.
Qed.

Lemma withType_builtFrom (tag : string) (d : Doc) :
  builtFrom tag false d (withType tag d).
Proof.
  unfold builtFrom, withType; cbn. repeat split.
  - apply lookup_insert_eq.
  - intros k Hk1 Hk2. now rewrite lookup_insert_ne by congruence.
  - now rewrite lookup_insert_ne by discriminate.
Qed.

Lemma mapThrowing_Forall2 {A B} (f : A -> Result B) (xs : list A) ys :
  mapThrowing f xs = Fulfilled ys ->
  Forall2 (fun x y => f x = Fulfilled y) xs ys.
Proof.
  revert ys. induction xs as [|x xs IH]; cbn; intros ys Hys.
  - injection Hys as <-. constructor.
  - destruct (f x) as [y|e] eqn:Hy; [|discriminate].
    destruct (mapThrowing f xs) as [ys'|e]; [|discriminate].
    injection Hys as <-. constructor; auto.
Qed.

(** What one list of the envelope is, given how its promise settled. *)
Lemma fetched_items (active : bool) tag cut m f sel sk lim
    (g : list Doc -> Result (list Doc)) (xs : list Doc) :
  (forall docs ys, g docs = Fulfilled ys ->
                   Forall2 (builtFrom tag cut) docs ys) ->
  settled (if active then then_ (findLean m f sel sk lim) g else resolve [])
  = Fulfilled xs ->
  if active
  then exists docs, find m f sel sk lim = Fulfilled docs /\
                    Forall2 (builtFrom tag cut) docs xs
  else xs = [].
Proof.
  intros Hg. destruct active; cbn.
  - destruct (find m f sel sk lim) as [docs|e]; [|discriminate].
    intros Hxs. exists docs. split; [reflexivity|]. now apply Hg.
  - now intros [= <-].
Qed.

Lemma built_homestays docs ys :
  mapThrowing (withTypeAndImage "homestay") docs = Fulfilled ys ->
  Forall2 (builtFrom "homestay" true) docs ys.
Proof.
  intros H. eapply Forall2_impl; [exact (mapThrowing_Forall2 _ _ _ H)|].
  intros d h. apply withTypeAndImage_builtFrom.
Qed.

Lemma built_products docs ys :
  mapThrowing (withTypeAndImage "product") docs = Fulfilled ys ->
  Forall2 (builtFrom "product" true) docs ys.
Proof.
  intros H. eapply Forall2_impl; [exact (mapThrowing_Forall2 _ _ _ H)|].
  intros d h. apply withTypeAndImage_builtFrom.
Qed.

Lemma built_guides docs (ys : list Doc) :
  Fulfilled (map (withType "guide") docs) = Fulfilled ys ->
  Forall2 (builtFrom "guide" false) docs ys.
Proof.
  intros [= <-]. induction docs; cbn; constructor; auto.
  apply withType_builtFrom.
Qed.

(** X12.  In the envelope of a successful search, each list of a selected
    type follows the documents its fetch returned, one item per document
    and in the same order: same [_id], every field of the document kept,
    [type] set to [homestay], [guide] or [product], and, for homestays and
    products, [images] replaced by the array of the document's first image
    alone, or by an empty array when the document has none.  The list of a
    type that is not selected is empty. *)
Theorem result_items_follow_fetch (req : Request) res query meta :
  response (unifiedSearch req) = sendSuccess (SearchPayload res query meta) ->
  exists pg lim r,
    parsePaginationParams (page req) (limit req) = (pg, lim) /\
    newRegExp (trim (orString (q req) [])) "i" = Some r /\
    (if isType (orString (type req) (lit "all")) "homestays"
     then exists sel docs,
         find HomestayModel (homestayFilter r) sel
              (Some ((pg - 1) * lim)) lim = Fulfilled docs /\
         Forall2 (builtFrom "homestay" true) docs (homestays res)
     else homestays res = []) /\
    (if isType (orString (type req) (lit "all")) "guides"
     then exists sel docs,
         find GuideModel (guideFilter r) sel
              (Some ((pg - 1) * lim)) lim = Fulfilled docs /\
         Forall2 (builtFrom "guide" false) docs (guides res)
     else guides res = []) /\
    (if isType (orString (type req) (lit "all")) "products"
     then exists sel docs,
         find ProductModel (productFilter r) sel
              (Some ((pg - 1) * lim)) lim = Fulfilled docs /\
         Forall2 (builtFrom "product" true) docs (products res)
     else products res = []).
Proof.
  intros Hresp.
  destruct (unifiedSearch_success req res query meta Hresp)
    as (pg & lim & r & hs & gs & ps & hc & gc & pc
        & Hparse & _ & Hr & Hs & -> & _).
  exists pg, lim, r. split; [assumption|]. split; [assumption|].
  apply all2_fulfilled in Hs as [Hs _].
  apply all3_fulfilled in Hs as (Hh & Hg & Hp).
  cbn [homestays guides products].
  apply (fetched_items _ "homestay" true) in Hh; [|apply built_homestays].
  apply (fetched_items _ "guide" false) in Hg; [|apply built_guides].
  apply (fetched_items _ "product" true) in Hp; [|apply built_products].
  repeat split.
  - destruct (isType _ "homestays"); [|assumption].
    destruct Hh as (docs & Hd & Hb). eauto.
  - destruct (isType _ "guides"); [|assumption].
    destruct Hg as (docs & Hd & Hb). eauto.
  - destruct (isType _ "products"); [|assumption].
    destruct Hp as (docs & Hd & Hb). eauto.
Qed.

Lemma builtFrom_tagged tag docs xs :
  Forall2 (builtFrom tag true) docs xs ->
  Forall (fun h => fields h !! "type" = Some (VStr (lit tag)) /\
                   exists img, fields h !! "images" = Some img /\
                               atMostOneImage img) xs.
Proof.
  induction 1 as [|d h ds hs (_ & Ht & _ & img & Hi & Hfirst) _ IH];
    constructor; auto.
  split; [assumption|]. exists img. split; [assumption|].
  exact (firstOnly_atMostOne _ _ Hfirst).
Qed.

Lemma builtFrom_tagged_plain tag docs xs :
  Forall2 (builtFrom tag false) docs xs ->
  Forall (fun h => fields h !! "type" = Some (VStr (lit tag))) xs.
Proof.
  induction 1 as [|d h ds hs (_ & Ht & _) _ IH]; constructor; auto.
Qed.

(** X13.  Every item of a successful search carries the tag of its list in
    [type], and every homestay and product item carries an [images] field
    that holds at most one image. *)
Theorem result_items_tagged (req : Request) res query meta :
  response (unifiedSearch req) = sendSuccess (SearchPayload res query meta) ->
  Forall (fun h => fields h !! "type" = Some (VStr (lit "homestay")) /\
                   exists img, fields h !! "images" = Some img /\
                               atMostOneImage img) (homestays res) /\
  Forall (fun g => fields g !! "type" = Some (VStr (lit "guide")))
         (guides res) /\
  Forall (fun p => fields p !! "type" = Some (VStr (lit "product")) /\
                   exists img, fields p !! "images" = Some img /\
                               atMostOneImage img) (products res).
Proof.
  intros Hresp.
  destruct (unifiedSearch_success req res query meta Hresp)
    as (pg & lim & r & hs & gs & ps & hc & gc & pc
        & _ & _ & _ & Hs & -> & _).
  apply all2_fulfilled in Hs as [Hs _].
  apply all3_fulfilled in Hs as (Hh & Hg & Hp).
  cbn [homestays guides products].
  apply (fetched_items _ "homestay" true) in Hh; [|apply built_homestays].
  apply (fetched_items _ "guide" false) in Hg; [|apply built_guides].
  apply (fetched_items _ "product" true) in Hp; [|apply built_products].
  split; [|split].
  - revert Hh. destruct (isType _ "homestays").
    + intros (docs & _ & Hb). exact (builtFrom_tagged _ _ _ Hb).
    + intros ->. constructor.
  - revert Hg. destruct (isType _ "guides").
    + intros (docs & _ & Hb). exact (builtFrom_tagged_plain _ _ _ Hb).
    + intros ->. constructor.
  - revert Hp. destruct (isType _ "products").
    + intros (docs & _ & Hb). exact (builtFrom_tagged _ _ _ Hb).
    + intros ->. constructor.
Qed.

(** ** Autocomplete *)

Lemma autocomplete_success (req : Request) (s : list Suggestion) :
  response (autocomplete req) = sendSuccess (SuggestionsPayload s) ->
  exists r hs gs ps ls,
    (2 <= length (trim (orString (q req) [])))%nat /\
    newRegExp (trim (orString (q req) [])) "i" = Some r /\
    settled (suggestionQueries r) = Fulfilled (hs, gs, ps, ls) /\
    s = take 10 (collectSuggestions ls hs gs ps).
Proof.
  intros Hresp.
  destruct (Nat.lt_ge_cases (length (trim (orString (q req) []))) 2)
    as [Hlen|Hlen].
  - rewrite (autocomplete_short req Hlen) in Hresp. discriminate.
  - rewrite (autocomplete_long req Hlen) in Hresp. cbv zeta in Hresp.
    destruct (newRegExp _ "i") as [r|] eqn:Hr; [|discriminate].
    destruct (settled _) as [[[[hs gs] ps] ls]|e] eqn:Hs; [|discriminate].
    cbn in Hresp. injection Hresp as <-.
    exists r, hs, gs, ps, ls. auto.
Qed.

Lemma not_rejected_fulfilled (r : RegExp) :
  (forall qy, In qy (issued (suggestionQueries r)) -> ~ rejects D qy) ->
  exists v, settled (suggestionQueries r) = Fulfilled v.
Proof.
  intros Hok. unfold suggestionQueries in *.
  cbn [issued all4 all2 findLean aggregate_ app In] in Hok.
  cbn [settled all4 all2 findLean aggregate_].
  repeat match goal with
         | |- context [match find ?m ?f ?sel ?sk ?l with _ => _ end] =>
             let Hx := fresh "Hx" in
             destruct (find m f sel sk l) eqn:Hx;
             [| exfalso; apply (Hok (Find m f sel sk l));
                [tauto | cbn; eauto]]
         | |- context [match aggregate ?m ?p with _ => _ end] =>
             let Hx := fresh "Hx" in
             destruct (aggregate m p) eqn:Hx;
             [| exfalso; apply (Hok (Aggregate m p));
                [tauto | cbn; eauto]]
         end.
  eauto.
Qed.

(** X14.  An autocomplete answers with suggestions exactly when the trimmed
    term has two code units or more, compiles to a pattern, and none of the
    four queries is rejected; its response is otherwise the validation
    error or the generic error of status 500, and it writes to the console
    exactly when it answers 500. *)
Theorem autocomplete_outcomes (req : Request) :
  ((exists s, response (autocomplete req) = sendSuccess (SuggestionsPayload s))
   <->
   (2 <= length (trim (orString (q req) [])))%nat /\
   exists r, newRegExp (trim (orString (q req) [])) "i" = Some r /\
             forall qy, In qy (issued (suggestionQueries r)) ->
                        ~ rejects D qy) /\
  (response (autocomplete req) = validationFailed \/
   response (autocomplete req) =
   sendError "Failed to get suggestions" 500 None \/
   exists s, response (autocomplete req) = sendSuccess (SuggestionsPayload s)) /\
  (console (autocomplete req) <> [] <->
   response (autocomplete req) =
   sendError "Failed to get suggestions" 500 None).
Proof.
  split; [|split].
  - split.
    + intros [s Hresp].
      destruct (autocomplete_success req s Hresp)
        as (r & hs & gs & ps & ls & Hlen & Hr & Hs & _).
      split; [assumption|]. exists r. split; [assumption|].
      intros qy Hin Hrej.
      destruct (strict_suggestionQueries r qy Hin Hrej) as [e He].
      congruence.
    + intros (Hlen & r & Hr & Hok).
      destruct (not_rejected_fulfilled r Hok) as ([[[hs gs] ps] ls] & Hs).
      rewrite (autocomplete_long req Hlen). cbv zeta. rewrite Hr, Hs.
      eexists. reflexivity.
  - destruct (Nat.lt_ge_cases (length (trim (orString (q req) []))) 2)
      as [Hlen|Hlen].
    + left. now rewrite (autocomplete_short req Hlen).
    + right. rewrite (autocomplete_long req Hlen). cbv zeta.
      destruct (newRegExp _ "i") as [r|]; [|now left].
      destruct (settled _) as [[[[hs gs] ps] ls]|e]; [right|left]; eauto.
  - destruct (Nat.lt_ge_cases (length (trim (orString (q req) []))) 2)
      as [Hlen|Hlen].
    + rewrite (autocomplete_short req Hlen). cbn. split; [congruence|].
      discriminate.
    + rewrite (autocomplete_long req Hlen). cbv zeta.
      destruct (newRegExp _ "i") as [r|]; [|cbn; split; [reflexivity|discriminate]].
      destruct (settled _) as [[[[hs gs] ps] ls]|e]; cbn; split;
        try congruence; try discriminate; reflexivity.
Qed.

Lemma wellShaped_location (loc : GroupRow) : wellShaped (locationSuggestion loc).
Proof. left. cbn. repeat split; eauto. Qed.

Lemma wellShaped_doc (key tag : string) (x : Doc) :
  In tag ["homestay"; "guide"; "product"] -> wellShaped (docSuggestion key tag x).
Proof.
  intros Htag. right. cbn [category docSuggestion id count].
  repeat split; eauto.
Qed.

Lemma Forall_map_all {A B} (P : B -> Prop) (f : A -> B) (l : list A) :
  (forall x, P (f x)) -> Forall P (map f l).
Proof. intros H. induction l; cbn; constructor; auto. Qed.

Lemma map_const_repeat {A B} (f : A -> B) (c : B) (l : list A) :
  (forall x, f x = c) -> map f l = repeat c (length l).
Proof. intros H. induction l; cbn; [reflexivity|]. now rewrite H, IHl. Qed.

(** X15.  Every suggestion sent is either a location, with a text, an
    occurrence count and no id, or a homestay, guide or product, with an id
    and no count; and the categories appear in blocks, locations first,
    then homestays, guides and products. *)
Theorem suggestions_well_shaped (req : Request) (s : list Suggestion) :
  response (autocomplete req) = sendSuccess (SuggestionsPayload s) ->
  Forall wellShaped s /\
  exists a b c d,
    map category s =
    take 10 (repeat "location" a ++ repeat "homestay" b ++
             repeat "guide" c ++ repeat "product" d).
Proof.
  intros Hresp.
  destruct (autocomplete_success req s Hresp)
    as (r & hs & gs & ps & ls & _ & _ & _ & ->).
  unfold collectSuggestions. split.
  - apply Forall_take. rewrite !Forall_app. repeat split;
      apply Forall_map_all; intros x;
      first [apply wellShaped_location | apply wellShaped_doc; cbn; tauto].
  - exists (length ls), (length hs), (length gs), (length ps).
    rewrite <- firstn_map, !map_app, !map_map.
    rewrite (map_const_repeat _ "location") by reflexivity.
    rewrite (map_const_repeat _ "homestay") by reflexivity.
    rewrite (map_const_repeat _ "guide") by reflexivity.
    rewrite (map_const_repeat _ "product") by reflexivity.
    reflexivity.
Qed.

(** X16.  When the driver honours the limit of three, truncation to ten can
    only cost products: every location, homestay and guide returned is
    suggested, and so is the first product if there is one. *)
Theorem only_products_are_cut (req : Request) (s : list Suggestion) :
  honoursLimit D ->
  response (autocomplete req) = sendSuccess (SuggestionsPayload s) ->
  exists r hs gs ps ls,
    settled (suggestionQueries r) = Fulfilled (hs, gs, ps, ls) /\
    s = map locationSuggestion ls ++
        map (docSuggestion "title" "homestay") hs ++
        map (docSuggestion "name" "guide") gs ++
        map (docSuggestion "title" "product")
            (take (10 - (length ls + length hs + length gs)) ps) /\
    (1 <= 10 - (length ls + length hs + length gs))%nat.
Proof.
  intros [Hfind Hagg] Hresp.
  destruct (autocomplete_success req s Hresp)
    as (r & hs & gs & ps & ls & _ & _ & Hs & ->).
  exists r, hs, gs, ps, ls. split; [assumption|].
  unfold suggestionQueries in Hs.
  apply all4_fulfilled in Hs as (Hh & Hg & Hp & Hl). cbn in Hh, Hg, Hp, Hl.
  pose proof (Hfind _ _ _ _ 3 _ ltac:(lia) Hh) as Bh.
  pose proof (Hfind _ _ _ _ 3 _ ltac:(lia) Hg) as Bg.
  specialize (Hagg HomestayModel
                [Match_ [Matches "location.district" r];
                 GroupCount "location.district"] 3 ls ltac:(lia) Hl).
  split; [|lia].
  unfold collectSuggestions.
  rewrite take_app_ge by (rewrite length_map; lia).
  rewrite take_app_ge by (rewrite !length_map; lia).
  rewrite take_app_ge by (rewrite !length_map; lia).
  rewrite !length_map, firstn_map.
  do 5 f_equal. lia.
Qed.

(** ** Both handlers *)

Lemma onlyRegexes_or (alts : list (string * RegExp)) :
  onlyRegexes [Or alts].
Proof. intros c [<-|[]]. exact I. Qed.

Lemma onlyRegexes_matches (path : string) (r : RegExp) :
  onlyRegexes [Matches path r].
Proof. intros c [<-|[]]. exact I. Qed.

Lemma statusDiscipline_search type r pg lim qy :
  In qy (issued (all2 (all3 (searchPromises type r pg lim))
                      (all3 (countPromises type r)))) ->
  statusDiscipline qy.
Proof.
  unfold searchPromises, countPromises.
  destruct (isType type "homestays"), (isType type "guides"),
    (isType type "products");
    cbn [issued all2 all3 then_ findLean countDocuments_ resolve app];
    intros Hin; splitIn; subst qy; cbn;
    first [ now left | apply onlyRegexes_or ].
Qed.

Lemma statusDiscipline_suggestions r qy :
  In qy (issued (suggestionQueries r)) -> statusDiscipline qy.
Proof.
  unfold suggestionQueries.
  cbn [issued all4 all2 findLean aggregate_ app].
  intros Hin; splitIn; subst qy; cbn.
  - now left.
  - apply onlyRegexes_matches.
  - apply onlyRegexes_matches.
  - intros f [[= <-]|[Hf|[Hf|[]]]]; try discriminate.
    apply onlyRegexes_matches.
Qed.

(** X17.  Every fetch and count on homestays, in search and in
    autocomplete, is restricted to [status: 'active']; guide and product
    queries carry no literal condition; and the district aggregate of
    autocomplete matches on the pattern alone, so it also counts homestays
    that are not active. *)
Theorem status_discipline (req : Request) (qy : Query) :
  In qy (queries (unifiedSearch req)) \/ In qy (queries (autocomplete req)) ->
  statusDiscipline qy.
Proof.
  intros [Hin|Hin].
  - destruct (unifiedSearch_queries req qy Hin)
      as (pg & lim & r & _ & _ & _ & Hq).
    rewrite Hq in Hin. now apply statusDiscipline_search in Hin.
  - destruct (autocomplete_queries req qy Hin) as (r & _ & _ & Hq).
    rewrite Hq in Hin. now apply statusDiscipline_suggestions in Hin.
Qed.

(** X18.  A search answers in one of three ways only: the validation
    error, the generic error of status 500, or success.  It writes to the
    console exactly when it answers 500, and a validation error is sent
    before any query. *)
Theorem search_outcomes (req : Request) :
  (response (unifiedSearch req) = validationFailed \/
   response (unifiedSearch req) =
   sendError "Failed to perform search" 500 None \/
   exists res query meta,
     response (unifiedSearch req) =
     sendSuccess (SearchPayload res query meta)) /\
  (console (unifiedSearch req) <> [] <->
   response (unifiedSearch req) =
   sendError "Failed to perform search" 500 None) /\
  (response (unifiedSearch req) = validationFailed ->
   queries (unifiedSearch req) = []).
Proof.
  destruct (parsePaginationParams (page req) (limit req)) as [pg lim] eqn:Hp.
  destruct (Nat.lt_ge_cases (length (trim (orString (q req) []))) 2)
    as [Hlen|Hlen].
  - rewrite (unifiedSearch_short req Hlen). cbn.
    repeat split; try discriminate; try congruence. now left.
  - rewrite (unifiedSearch_long req pg lim Hp Hlen). cbv zeta.
    destruct (newRegExp _ "i") as [r|].
    + destruct (settled _) as [[[[hs gs] ps] [[hc gc] pc]]|e]; cbn;
        repeat split; try discriminate; try congruence; eauto 8.
    + cbn. repeat split; try discriminate; try congruence. auto.
Qed.

End MoreFacts.

End SearchExtras.

(** * The further properties on the reference collaborators *)

Module ExtraWitnesses.
Import Search SearchShapes Reference SearchSamples.
Import SearchProofs SearchExtras ReferenceProofs.

Lemma malformed_pattern_is_server_error_witness :
  response (runSearch (sampleStore noFaults) malformed) =
  sendError "Failed to perform search" 500 None /\
  queries (runSearch (sampleStore noFaults) malformed) = [] /\
  response (runAutocomplete (sampleStore noFaults) malformed) =
  sendError "Failed to get suggestions" 500 None.
Proof.
  destruct (@malformed_pattern_is_server_error literalEngine specUtils
              (memoryDriver (sampleStore noFaults)) malformed
              ltac:(vm_compute; lia) eq_refl)
    as (H1 & H2 & _ & H3 & _).
  exact (conj H1 (conj H2 H3)).
Defined.

Lemma unknown_type_searches_nothing_witness :
  queries (runSearch (sampleStore noFaults) hotels) = [] /\
  exists meta,
    response (runSearch (sampleStore noFaults) hotels) =
    sendSuccess
      (SearchPayload
         {| homestays := []; guides := []; products := [];
            total := {| total_homestays := 0; total_guides := 0;
                        total_products := 0; overall := 0 |} |}
         (lit "ranchi") meta).
Proof.
  destruct (@unknown_type_searches_nothing literalEngine specUtils
              (memoryDriver (sampleStore noFaults)) hotels
              ltac:(discriminate) ltac:(discriminate)
              ltac:(discriminate) ltac:(discriminate))
    as [Hq Hresp].
  split; [exact Hq|]. eexists.
  exact (Hresp 1 2 ranchiPattern eq_refl ltac:(vm_compute; lia) eq_refl).
Defined.

Lemma default_type_is_all_witness :
  runSearch (sampleStore noFaults) ranchi =
  runSearch (sampleStore noFaults) ranchiAll.
Proof.
  exact (@default_type_is_all literalEngine specUtils
           (memoryDriver (sampleStore noFaults)) ranchi ranchiAll
           (or_introl eq_refl) eq_refl eq_refl eq_refl eq_refl).
Defined.

Lemma counts_ignore_pagination_witness :
  exists res query meta res' query' meta',
    response (runSearch (sampleStore noFaults) ranchi) =
    sendSuccess (SearchPayload res query meta) /\
    response (runSearch (sampleStore noFaults) ranchiLater) =
    sendSuccess (SearchPayload res' query' meta') /\
    length (homestays res) = 4%nat /\ length (homestays res') = 1%nat /\
    total res' = total res.
Proof.
  eexists _, _, _, _, _, _.
  assert (H : response (runSearch (sampleStore noFaults) ranchi) =
              sendSuccess (SearchPayload _ _ _)) by (vm_compute; reflexivity).
  assert (H' : response (runSearch (sampleStore noFaults) ranchiLater) =
               sendSuccess (SearchPayload _ _ _)) by (vm_compute; reflexivity).
  split; [exact H|]. split; [exact H'|].
  split; [reflexivity|]. split; [reflexivity|].
  exact (proj1 (@counts_ignore_pagination literalEngine specUtils
                  (memoryDriver (sampleStore noFaults)) ranchi ranchiLater
                  _ _ _ _ _ _ eq_refl eq_refl H H')).
Defined.

Lemma result_items_follow_fetch_witness :
  exists res query meta sel docs,
    response (runSearch imageStore ranchiHomestays) =
    sendSuccess (SearchPayload res query meta) /\
    (fun h => fields h !! "images") <$> homestays res =
    [Some (VArr [lit "a.jpg"]); Some (VArr [])] /\
    @find literalEngine (memoryDriver imageStore)
      HomestayModel (homestayFilter ranchiPattern) sel (Some 0) 10 =
    Fulfilled docs /\
    Forall2 (builtFrom "homestay" true) docs (homestays res).
Proof.
  eexists _, _, _.
  assert (H : response (runSearch imageStore ranchiHomestays) =
              sendSuccess (SearchPayload _ _ _)) by (vm_compute; reflexivity).
  match type of H with
  | _ = sendSuccess (SearchPayload ?res _ _) =>
      assert (Himages :
                (fun h => fields h !! "images") <$> homestays res =
                [Some (VArr [lit "a.jpg"]); Some (VArr [])])
        by (vm_compute; reflexivity)
  end.
  destruct (@result_items_follow_fetch literalEngine specUtils
              (memoryDriver imageStore) ranchiHomestays _ _ _ H)
    as (pg & lim & r & Hp & Hr & Hh & _).
  assert (Ht : isType (orString (type ranchiHomestays) (lit "all"))
                 "homestays" = true) by (vm_compute; reflexivity).
  rewrite Ht in Hh. destruct Hh as (sel & docs & Hfind & Hbuilt).
  assert (Hpg : (pg, lim) = (1, 10)) by (rewrite <- Hp; reflexivity).
  assert (Hre : Some r = Some ranchiPattern)
    by (rewrite <- Hr; reflexivity).
  injection Hpg as -> ->. injection Hre as ->.
  exists sel, docs. exact (conj H (conj Himages (conj Hfind Hbuilt))).
Defined.

Lemma result_items_tagged_witness :
  exists res query meta,
    response (runSearch (sampleStore noFaults) ranchi) =
    sendSuccess (SearchPayload res query meta) /\
    length (homestays res) = 4%nat /\
    Forall (fun h => fields h !! "type" = Some (VStr (lit "homestay")) /\
                     exists img, fields h !! "images" = Some img /\
                                 atMostOneImage img) (homestays res).
Proof.
  eexists _, _, _.
  assert (H : response (runSearch (sampleStore noFaults) ranchi) =
              sendSuccess (SearchPayload _ _ _)) by (vm_compute; reflexivity).
  split; [exact H|]. split; [reflexivity|].
  exact (proj1 (@result_items_tagged literalEngine specUtils
                  (memoryDriver (sampleStore noFaults)) ranchi _ _ _ H)).
Defined.

Lemma suggestions_well_shaped_witness :
  exists s,
    response (runAutocomplete (sampleStore noFaults) ranchi) =
    sendSuccess (SuggestionsPayload s) /\
    length s = 10%nat /\ Forall wellShaped s.
Proof.
  eexists.
  assert (H : response (runAutocomplete (sampleStore noFaults) ranchi) =
              sendSuccess (SuggestionsPayload _)) by (vm_compute; reflexivity).
  split; [exact H|]. split; [reflexivity|].
  exact (proj1 (@suggestions_well_shaped literalEngine specUtils
                  (memoryDriver (sampleStore noFaults)) ranchi _ H)).
Defined.

Lemma only_products_are_cut_witness :
  exists s hs gs ps ls,
    response (runAutocomplete (sampleStore noFaults) ranchi) =
    sendSuccess (SuggestionsPayload s) /\
    s = map locationSuggestion ls ++
        map (docSuggestion "title" "homestay") hs ++
        map (docSuggestion "name" "guide") gs ++
        map (docSuggestion "title" "product")
            (take (10 - (length ls + length hs + length gs)) ps).
Proof.
  eexists.
  assert (H : response (runAutocomplete (sampleStore noFaults) ranchi) =
              sendSuccess (SuggestionsPayload _)) by (vm_compute; reflexivity).
  destruct (@only_products_are_cut literalEngine specUtils
              (memoryDriver (sampleStore noFaults)) ranchi _
              (memoryDriver_honoursLimit _) H)
    as (r & hs & gs & ps & ls & _ & Hs & _).
  exists hs, gs, ps, ls. split; [exact H | exact Hs].
Defined.

Lemma status_discipline_witness :
  statusDiscipline guideCount /\ statusDiscipline districtAggregate.
Proof.
  split.
  - apply (@status_discipline literalEngine specUtils
             (memoryDriver (sampleStore noFaults)) ranchi guideCount).
    left. vm_compute. tauto.
  - apply (@status_discipline literalEngine specUtils
             (memoryDriver (sampleStore noFaults)) ranchi districtAggregate).
    right. vm_compute. tauto.
Defined.

End ExtraWitnesses.
